(** * Domain deletion pipeline of [apps/web/lib/api/domains/delete-domain-links.ts]

    A shallow embedding of [deleteDomainAndLinks], [markDomainAsDeleted] and
    [queueDomainDeletion].  The remote collaborators (Prisma tables, Redis,
    the R2 bucket, Tinybird, QStash, Vercel) are fields of one [World]; every
    remote call may reject, which an [Env] decides.  An [async] function is a
    computation in the monad [M]: it threads the world and either returns or
    throws. *)

From Stdlib Require Import Ascii ZArith Bool Lia.
From Stdlib Require String.
From stdpp Require Import base option list gmap strings.

Local Open Scope Z_scope.

(** ** JavaScript strings

    Strings are sequences of characters.  [String.prototype.toLowerCase]
    belongs to the host and is a field of the environment below; on strings
    of ASCII characters it is [ascii_toLowerCase], which the scenarios of
    this file, all ASCII, use for it. *)

Definition lower_ascii (c : ascii) : ascii :=
  let n := nat_of_ascii c in
  if ((65 <=? n)%nat && (n <=? 90)%nat)%bool then ascii_of_nat (n + 32) else c.

(** Lower-casing of a string of ASCII characters: [A-Z] go to [a-z]. *)
Fixpoint ascii_toLowerCase (s : string) : string :=
  match s with
  | EmptyString => EmptyString
  | String c s' => String (lower_ascii c) (ascii_toLowerCase s')
  end.

(** [String.prototype.startsWith]: [startsWith s p] is [s.startsWith(p)]. *)
Definition startsWith (s p : string) : bool := String.prefix p s.

(** Drop the first [n] characters. *)
Fixpoint string_drop (n : nat) (s : string) : string :=
  match n, s with
  | O, _ => s
  | S n', String _ s' => string_drop n' s'
  | S _, EmptyString => EmptyString
  end.

(** [String.prototype.replace] with a string pattern: only the first
    occurrence of [pat], scanning from the left, is replaced.  The
    replacement strings of this file contain no [$], so they are taken
    literally. *)
Fixpoint replace (s pat rep : string) : string :=
  if String.prefix pat s then rep +:+ string_drop (String.length pat) s
  else match s with
       | EmptyString => EmptyString
       | String c s' => String c (replace s' pat rep)
       end.

(** ** Rows and payloads *)

(** A rejection reason (the [reason] of a rejected promise). *)
Definition Reason := string.

(** Prisma's "record to update / delete does not exist". *)
Definition P2025 : Reason := "P2025".

(** A JavaScript [number], as far as this file can tell numbers apart:
    integers, the negative zero, the other finite values [m / 2^e], the two
    infinities and [NaN]. *)
Inductive Number :=
| Int (z : Z)
| NegativeZero
| Fraction (m : Z) (e : positive)
| Infinity (negative : bool)
| NaN.

Coercion Int : Z >-> Number.
Arguments Some {A} & a.

(** Truthiness of a number: [0], [-0] and [NaN] are falsy. *)
Definition truthy (x : Number) : bool :=
  match x with
  | Int z => negb (z =? 0)
  | NegativeZero => false
  | Fraction m _ => negb (m =? 0)
  | Infinity _ => true
  | NaN => false
  end.

Record Tag := { tag_id : string }.

(** A row of [prisma.link] with [include: { tags: true }]. *)
Record Link := {
  link_id : string;
  link_domain : string;
  link_key : string;
  link_url : string;
  link_image : option string;
  link_tags : list Tag;
  link_createdAt : Z;
  link_projectId : option string
}.

(** A row of [prisma.domain]. *)
Record Domain := {
  domain_slug : string;
  domain_projectId : option string
}.

(** The object handed to [recordLink] for one link. *)
Record LinkEvent := {
  ev_link_id : string;
  ev_domain : string;
  ev_key : string;
  ev_url : string;
  ev_tag_ids : list string;
  ev_workspace_id : string;
  ev_created_at : Z;
  ev_deleted : bool
}.

(** The argument of [qstash.publishJSON]. *)
Record Job := {
  job_url : string;
  job_delay : option Number;
  job_workspaceId : string;
  job_domain : string
}.

(** One [console.error] call. *)
Record LogEntry := {
  log_message : string;
  log_reason : Reason;
  log_domain : string;
  log_workspaceId : string
}.

(** Every write request sent to a collaborator, in the order it was issued,
    whether or not the collaborator then accepted it. *)
Inductive Request :=
| ReqRecordLink (events : list LinkEvent)
| ReqStorageDelete (path : string)
| ReqPipelineExec (dels : list string)
| ReqLinkDeleteMany (ids : list string)
| ReqProjectDecrement (workspaceId : string) (n : Z)
| ReqPublishJSON (job : Job)
| ReqDomainDelete (slug : string)
| ReqRemoveDomainFromVercel (name : string)
| ReqDomainClearProject (slug : string)
| ReqLinkClearProject (domainName : string).

(** ** The world *)

Record World := {
  link_table : list Link;            (* prisma.link, in the order the store returns rows *)
  domain_table : list Domain;        (* prisma.domain *)
  linksUsage : gmap string Z;        (* prisma.project: id -> linksUsage *)
  redis_keys : gset string;          (* keys present in Redis *)
  r2_objects : gset string;          (* paths present in the R2 bucket *)
  tinybird : list LinkEvent;         (* rows ingested by Tinybird *)
  qstash_queue : list Job;           (* messages accepted by QStash *)
  vercel_domains : gset string;      (* names bound at Vercel *)
  console : list LogEntry;           (* console.error output *)
  unhandled : list Reason;           (* rejections no handler ever observed *)
  requests : list Request
}.

Definition set_link_table (f : list Link → list Link) (w : World) : World :=
  {| link_table := f (link_table w); domain_table := domain_table w;
     linksUsage := linksUsage w; redis_keys := redis_keys w;
     r2_objects := r2_objects w; tinybird := tinybird w;
     qstash_queue := qstash_queue w; vercel_domains := vercel_domains w;
     console := console w; unhandled := unhandled w; requests := requests w |}.

Definition set_domain_table (f : list Domain → list Domain) (w : World) : World :=
  {| link_table := link_table w; domain_table := f (domain_table w);
     linksUsage := linksUsage w; redis_keys := redis_keys w;
     r2_objects := r2_objects w; tinybird := tinybird w;
     qstash_queue := qstash_queue w; vercel_domains := vercel_domains w;
     console := console w; unhandled := unhandled w; requests := requests w |}.

Definition set_linksUsage (f : gmap string Z → gmap string Z) (w : World) : World :=
  {| link_table := link_table w; domain_table := domain_table w;
     linksUsage := f (linksUsage w); redis_keys := redis_keys w;
     r2_objects := r2_objects w; tinybird := tinybird w;
     qstash_queue := qstash_queue w; vercel_domains := vercel_domains w;
     console := console w; unhandled := unhandled w; requests := requests w |}.

Definition set_redis_keys (f : gset string → gset string) (w : World) : World :=
  {| link_table := link_table w; domain_table := domain_table w;
     linksUsage := linksUsage w; redis_keys := f (redis_keys w);
     r2_objects := r2_objects w; tinybird := tinybird w;
     qstash_queue := qstash_queue w; vercel_domains := vercel_domains w;
     console := console w; unhandled := unhandled w; requests := requests w |}.

Definition set_r2_objects (f : gset string → gset string) (w : World) : World :=
  {| link_table := link_table w; domain_table := domain_table w;
     linksUsage := linksUsage w; redis_keys := redis_keys w;
     r2_objects := f (r2_objects w); tinybird := tinybird w;
     qstash_queue := qstash_queue w; vercel_domains := vercel_domains w;
     console := console w; unhandled := unhandled w; requests := requests w |}.

Definition set_tinybird (f : list LinkEvent → list LinkEvent) (w : World) : World :=
  {| link_table := link_table w; domain_table := domain_table w;
     linksUsage := linksUsage w; redis_keys := redis_keys w;
     r2_objects := r2_objects w; tinybird := f (tinybird w);
     qstash_queue := qstash_queue w; vercel_domains := vercel_domains w;
     console := console w; unhandled := unhandled w; requests := requests w |}.

Definition set_qstash_queue (f : list Job → list Job) (w : World) : World :=
  {| link_table := link_table w; domain_table := domain_table w;
     linksUsage := linksUsage w; redis_keys := redis_keys w;
     r2_objects := r2_objects w; tinybird := tinybird w;
     qstash_queue := f (qstash_queue w); vercel_domains := vercel_domains w;
     console := console w; unhandled := unhandled w; requests := requests w |}.

Definition set_vercel_domains (f : gset string → gset string) (w : World) : World :=
  {| link_table := link_table w; domain_table := domain_table w;
     linksUsage := linksUsage w; redis_keys := redis_keys w;
     r2_objects := r2_objects w; tinybird := tinybird w;
     qstash_queue := qstash_queue w; vercel_domains := f (vercel_domains w);
     console := console w; unhandled := unhandled w; requests := requests w |}.

Definition set_console (f : list LogEntry → list LogEntry) (w : World) : World :=
  {| link_table := link_table w; domain_table := domain_table w;
     linksUsage := linksUsage w; redis_keys := redis_keys w;
     r2_objects := r2_objects w; tinybird := tinybird w;
     qstash_queue := qstash_queue w; vercel_domains := vercel_domains w;
     console := f (console w); unhandled := unhandled w; requests := requests w |}.

Definition set_unhandled (f : list Reason → list Reason) (w : World) : World :=
  {| link_table := link_table w; domain_table := domain_table w;
     linksUsage := linksUsage w; redis_keys := redis_keys w;
     r2_objects := r2_objects w; tinybird := tinybird w;
     qstash_queue := qstash_queue w; vercel_domains := vercel_domains w;
     console := console w; unhandled := f (unhandled w); requests := requests w |}.

Definition set_requests (f : list Request → list Request) (w : World) : World :=
  {| link_table := link_table w; domain_table := domain_table w;
     linksUsage := linksUsage w; redis_keys := redis_keys w;
     r2_objects := r2_objects w; tinybird := tinybird w;
     qstash_queue := qstash_queue w; vercel_domains := vercel_domains w;
     console := console w; unhandled := unhandled w; requests := f (requests w) |}.

(** ** The environment

    [R2_URL] and [APP_DOMAIN_WITH_NGROK] are imported from [@dub/utils] and
    [toLowerCase] is the host's [String.prototype.toLowerCase].  The
    [_rejects] fields say which remote calls reject, and with what reason.
    Nothing awaits the promise of a [storage.delete]:
    [storage_delete_landed] says whether an accepted deletion of that path
    has taken effect in the bucket by the time the caller has returned. *)

Record Env := {
  R2_URL : string;
  APP_DOMAIN_WITH_NGROK : string;
  toLowerCase : string → string;
  storage_delete_landed : string → bool;
  findMany_rejects : option Reason;
  recordLink_rejects : option Reason;
  storage_delete_rejects : string → option Reason;
  pipeline_exec_rejects : option Reason;
  deleteMany_rejects : option Reason;
  project_update_rejects : option Reason;
  count_rejects : option Reason;
  publishJSON_rejects : option Reason;
  domain_delete_rejects : option Reason;
  vercel_rejects : option Reason;
  domain_update_rejects : option Reason;
  updateMany_rejects : option Reason
}.

(** ** Promises and [async] code *)

(** How a computation completes. *)
Inductive Completion (A : Type) :=
| Return (a : A)
| Throw (reason : Reason).
Arguments Return {A} a.
Arguments Throw {A} reason.

(** How a promise settles; the elements of [Promise.allSettled]'s result. *)
Inductive Settled (A : Type) :=
| Fulfilled (value : A)
| Rejected (reason : Reason).
Arguments Fulfilled {A} value.
Arguments Rejected {A} reason.

(** A promise is identified with the way it settles.  Every call is to a
    distinct store; the effect of a call whose promise is awaited, alone or
    through [Promise.allSettled], is applied when the call is issued. *)
Definition Promise (A : Type) : Type := Settled A.

Definition M (A : Type) : Type := World → Completion A * World.

Definition ret {A} (a : A) : M A := λ w, (Return a, w).

Definition throw {A} (e : Reason) : M A := λ w, (Throw e, w).

Definition bind {A B} (m : M A) (k : A → M B) : M B :=
  λ w, match m w with
       | (Return a, w') => k a w'
       | (Throw e, w') => (Throw e, w')
       end.

Notation "x <- m ;; k" := (bind m (λ x, k))
  (at level 100, m at next level, right associativity).
Notation "m ;;; k" := (bind m (λ _, k))
  (at level 100, right associativity).

(** [await p] *)
Definition await {A} (p : Promise A) : M A :=
  match p with
  | Fulfilled a => ret a
  | Rejected e => throw e
  end.

(** Calling an [async] function: the body runs, and what it throws becomes
    the rejection of the promise the call returns. *)
Definition async {A} (body : M A) : M (Promise A) :=
  λ w, match body w with
       | (Return a, w') => (Return (Fulfilled a), w')
       | (Throw e, w') => (Return (Rejected e), w')
       end.

(** [l.map(f)] where [f] performs calls *)
Fixpoint mapM {A B} (f : A → M B) (l : list A) : M (list B) :=
  match l with
  | [] => ret []
  | a :: l' => b <- f a ;; bs <- mapM f l' ;; ret (b :: bs)
  end.

(** [l.forEach(f)] *)
Fixpoint forEach {A} (l : list A) (f : A → M unit) : M unit :=
  match l with
  | [] => ret tt
  | a :: l' => f a ;;; forEach l' f
  end.

(** JavaScript values that occur as results. *)
Inductive Value :=
| VUndefined
| VResponse                          (* a collaborator's response; contents unused *)
| VCount (n : Z)                     (* [{ count: n }] *)
| VPromises (ps : list (Promise unit)). (* an array holding promises *)

(** An element of the array given to [Promise.allSettled]. *)
Inductive Element :=
| EPromise (p : Promise Value)
| EValue (v : Value).

(** [Promise.allSettled]: a promise settles as itself; anything else,
    an array of promises included, counts as already fulfilled with
    that value. *)
Definition allSettled (elements : list Element) : list (Settled Value) :=
  map (λ e, match e with
            | EPromise p => p
            | EValue v => Fulfilled v
            end) elements.

(** Promises of an array that no [await], [then] or [allSettled] ever
    observes: the runtime reports those that reject. *)
Definition unobserved {A} (ps : list (Promise A)) : M unit :=
  λ w, (Return tt,
        set_unhandled (λ u, u ++ omap (λ p, match p with
                                            | Rejected e => Some e
                                            | Fulfilled _ => None
                                            end) ps) w).

(** ** Collaborators *)

Definition issue (r : Request) (w : World) : World :=
  set_requests (λ rs, rs ++ [r]) w.

(** A write call: the request is issued; the environment rejects it and
    the store stays as it was, or [effect] updates the store and says how
    the call settles. *)
Definition remote {A} (r : Request) (rejects : option Reason)
    (effect : World → Settled A * World) : M (Promise A) :=
  λ w, match rejects with
       | Some e => (Return (Rejected e), issue r w)
       | None => let '(s, w') := effect (issue r w) in (Return s, w')
       end.

(** [where: { domain }], taken as equality of the two strings. *)
Definition where_domain (domain : string) (link : Link) : bool :=
  String.eqb (link_domain link) domain.

(** [prisma.link.findMany({ where: { domain }, include: { tags: true }, take })] *)
Definition prisma_link_findMany (E : Env) (domain : string) (take : nat)
    : M (Promise (list Link)) :=
  λ w, match findMany_rejects E with
       | Some e => (Return (Rejected e), w)
       | None =>
           (Return (Fulfilled (firstn take (List.filter (where_domain domain) (link_table w)))), w)
       end.

(** [prisma.link.count({ where: { domain } })] *)
Definition prisma_link_count (E : Env) (domain : string) : M (Promise Z) :=
  λ w, match count_rejects E with
       | Some e => (Return (Rejected e), w)
       | None =>
           (Return (Fulfilled (Z.of_nat (length (List.filter (where_domain domain) (link_table w))))), w)
       end.

Definition id_in (ids : list string) (link : Link) : bool :=
  existsb (String.eqb (link_id link)) ids.

(** [prisma.link.deleteMany({ where: { id: { in: ids } } })] *)
Definition prisma_link_deleteMany (E : Env) (ids : list string) : M (Promise Value) :=
  remote (ReqLinkDeleteMany ids) (deleteMany_rejects E)
    (λ w, (Fulfilled (VCount (Z.of_nat (length (List.filter (id_in ids) (link_table w))))),
           set_link_table (List.filter (λ l, negb (id_in ids l))) w)).

(** [prisma.project.update({ where: { id }, data: { linksUsage: { decrement: n } } })] *)
Definition prisma_project_update (E : Env) (id : string) (n : Z) : M (Promise Value) :=
  remote (ReqProjectDecrement id n) (project_update_rejects E)
    (λ w, match linksUsage w !! id with
          | Some u => (Fulfilled VResponse, set_linksUsage (<[id := u - n]>) w)
          | None => (Rejected P2025, w)
          end).

Definition has_slug (slug : string) (d : Domain) : bool :=
  String.eqb (domain_slug d) slug.

(** [prisma.domain.delete({ where: { slug } })] *)
Definition prisma_domain_delete (E : Env) (slug : string) : M (Promise Value) :=
  remote (ReqDomainDelete slug) (domain_delete_rejects E)
    (λ w, if existsb (has_slug slug) (domain_table w)
          then (Fulfilled VResponse,
                set_domain_table (List.filter (λ d, negb (has_slug slug d))) w)
          else (Rejected P2025, w)).

Definition clear_domain_project (slug : string) (d : Domain) : Domain :=
  if has_slug slug d then {| domain_slug := domain_slug d; domain_projectId := None |} else d.

(** [prisma.domain.update({ where: { slug }, data: { projectId: null } })] *)
Definition prisma_domain_update (E : Env) (slug : string) : M (Promise Value) :=
  remote (ReqDomainClearProject slug) (domain_update_rejects E)
    (λ w, if existsb (has_slug slug) (domain_table w)
          then (Fulfilled VResponse, set_domain_table (map (clear_domain_project slug)) w)
          else (Rejected P2025, w)).

Definition clear_link_project (domain : string) (l : Link) : Link :=
  if where_domain domain l
  then {| link_id := link_id l; link_domain := link_domain l; link_key := link_key l;
          link_url := link_url l; link_image := link_image l; link_tags := link_tags l;
          link_createdAt := link_createdAt l; link_projectId := None |}
  else l.

(** [prisma.link.updateMany({ where: { domain }, data: { projectId: null } })] *)
Definition prisma_link_updateMany (E : Env) (domain : string) : M (Promise Value) :=
  remote (ReqLinkClearProject domain) (updateMany_rejects E)
    (λ w, (Fulfilled (VCount (Z.of_nat (length (List.filter (where_domain domain) (link_table w))))),
           set_link_table (map (clear_link_project domain)) w)).

(** [redis.pipeline()], [pipeline.del(key)], [pipeline.exec()]: the pipeline
    collects keys locally and [exec] sends them in one request. *)
Definition redis_pipeline : list string := [].

Definition pipeline_del (pipeline : list string) (key : string) : list string :=
  pipeline ++ [key].

Definition pipeline_exec (E : Env) (pipeline : list string) : M (Promise Value) :=
  remote (ReqPipelineExec pipeline) (pipeline_exec_rejects E)
    (λ w, (Fulfilled VResponse, set_redis_keys (λ ks, ks ∖ list_to_set pipeline) w)).

(** [storage.delete(path)], whose promise this file never awaits: the
    request is issued and the promise settles as the environment says; the
    object has left the bucket only if the deletion has landed. *)
Definition storage_delete (E : Env) (path : string) : M (Promise unit) :=
  remote (ReqStorageDelete path) (storage_delete_rejects E path)
    (λ w, (Fulfilled tt,
           if storage_delete_landed E path
           then set_r2_objects (λ os, os ∖ {[path]}) w
           else w)).

(** [recordLink(events)] *)
Definition recordLink (E : Env) (events : list LinkEvent) : M (Promise Value) :=
  remote (ReqRecordLink events) (recordLink_rejects E)
    (λ w, (Fulfilled VResponse, set_tinybird (λ t, t ++ events) w)).

(** [qstash.publishJSON({ url, delay?, body })] *)
Definition qstash_publishJSON (E : Env) (job : Job) : M (Promise Value) :=
  remote (ReqPublishJSON job) (publishJSON_rejects E)
    (λ w, (Fulfilled VResponse, set_qstash_queue (λ q, q ++ [job]) w)).

(** [removeDomainFromVercel(domain)] *)
Definition removeDomainFromVercel (E : Env) (domain : string) : M (Promise Value) :=
  remote (ReqRemoveDomainFromVercel domain) (vercel_rejects E)
    (λ w, (Fulfilled VResponse, set_vercel_domains (λ ds, ds ∖ {[domain]}) w)).

(** [console.error(message, { reason, domain, workspaceId })] *)
Definition console_error (message : string) (reason : Reason)
    (domain workspaceId : string) : M unit :=
  λ w, (Return tt,
        set_console (λ c, c ++ [{| log_message := message; log_reason := reason;
                                   log_domain := domain;
                                   log_workspaceId := workspaceId |}]) w).

(** [if (promise.status === "rejected") { f(promise.reason) }] *)
Definition if_rejected {A} (promise : Settled A) (f : Reason → M unit) : M unit :=
  match promise with
  | Rejected reason => f reason
  | Fulfilled _ => ret tt
  end.

(** ** [delete-domain-links.ts] *)

(** Lines 174-191.  [delay] is a [number] or [undefined];
    [...(delay && { delay })] adds the field only when [delay] is truthy. *)
Definition queueDomainDeletion (E : Env) (workspaceId domain : string)
    (delay : option Number) : M (Promise Value) :=
  async (
    p <- qstash_publishJSON E
           {| job_url := APP_DOMAIN_WITH_NGROK E +:+ "/api/cron/domains/delete";
              job_delay := match delay with
                           | Some d => if truthy d then Some d else None
                           | None => None
                           end;
              job_workspaceId := workspaceId;
              job_domain := domain |} ;;
    await p).

(** Line 34: the Redis key of a link. *)
Definition cache_key (E : Env) (link : Link) : string :=
  toLowerCase E (link_domain link +:+ ":" +:+ link_key link).

(** Lines 40-49: the event recorded for a link. *)
Definition deleted_event (workspaceId : string) (link : Link) : LinkEvent :=
  {| ev_link_id := link_id link;
     ev_domain := link_domain link;
     ev_key := link_key link;
     ev_url := link_url link;
     ev_tag_ids := map tag_id (link_tags link);
     ev_workspace_id := workspaceId;
     ev_created_at := link_createdAt link;
     ev_deleted := true |}.

(** Line 54: [link.image?.startsWith(`${R2_URL}/images/${link.id}`)];
    an absent image gives [undefined], which [filter] takes as false. *)
Definition image_in_r2 (E : Env) (link : Link) : bool :=
  match link_image link with
  | Some image => startsWith image (R2_URL E +:+ "/images/" +:+ link_id link)
  | None => false
  end.

(** Line 55: [link.image!.replace(`${R2_URL}/`, '')] with the empty
    replacement; calling [replace] on an absent image is a [TypeError],
    here [None]. *)
Definition r2_path (E : Env) (link : Link) : option string :=
  match link_image link with
  | Some image => Some (replace image (R2_URL E +:+ "/") EmptyString)
  | None => None
  end.

(** Line 55: [storage.delete(...)] of that path. *)
Definition delete_image (E : Env) (link : Link) : M (Promise unit) :=
  match r2_path E link with
  | Some path => storage_delete E path
  | None => throw "TypeError"
  end.

(** Lines 31-78: the pipeline is filled, the five array elements are
    evaluated left to right, and [Promise.allSettled] is awaited.  The
    second element is the array that [map] returns, not a promise. *)
Definition fanOut (E : Env) (workspaceId : string) (links : list Link)
    : M (list (Settled Value)) :=
  let pipeline :=
    fold_left (λ pipeline link, pipeline_del pipeline (cache_key E link))
              links redis_pipeline in
  p1 <- recordLink E (map (deleted_event workspaceId) links) ;;
  p2 <- mapM (delete_image E) (List.filter (image_in_r2 E) links) ;;
  p3 <- pipeline_exec E pipeline ;;
  p4 <- prisma_link_deleteMany E (map link_id links) ;;
  p5 <- prisma_project_update E workspaceId (Z.of_nat (length links)) ;;
  (unobserved p2 ;;;
   ret (allSettled [EPromise p1; EValue (VPromises p2); EPromise p3;
                    EPromise p4; EPromise p5])).

(** Lines 80-88 *)
Definition report (domain workspaceId : string) (response : list (Settled Value))
    : M unit :=
  forEach response (λ promise,
    if_rejected promise (λ reason,
      console_error "Error deleting domain and links" reason domain workspaceId)).

(** Lines 90-109: the remaining links are counted again; the deletion is
    queued once more, or the domain row is deleted.  The result is what
    [publishJSON] answered, or [undefined]. *)
Definition converge (E : Env) (domain workspaceId : string) : M Value :=
  remainingLinks <- (p <- prisma_link_count E domain ;; await p) ;;
  if remainingLinks >? 0
  then (p <- queueDomainDeletion E workspaceId domain (Some 2) ;; await p)
  else (p <- prisma_domain_delete E domain ;;
        (await p ;;; ret VUndefined)).

(** Lines 10-110 *)
Definition deleteDomainAndLinks (E : Env) (domain workspaceId : string) : M Value :=
  links <- (p <- prisma_link_findMany E domain 1 ;; await p) ;;
  if (length links =? 0)%nat then ret VUndefined
  else
    (response <- fanOut E workspaceId links ;;
     (report domain workspaceId response ;;;
      converge E domain workspaceId)).

(** Lines 114-172.  The array destructuring binds the first three of the
    four settled results. *)
Definition markDomainAsDeleted (E : Env) (domain workspaceId : string) : M Value :=
  p1 <- removeDomainFromVercel E domain ;;
  p2 <- prisma_domain_update E domain ;;
  p3 <- prisma_link_updateMany E domain ;;
  p4 <- queueDomainDeletion E workspaceId domain None ;;
  match allSettled [EPromise p1; EPromise p2; EPromise p3; EPromise p4] with
  | vercelResponse :: prismaResponse :: qstashResponse :: _ =>
      (if_rejected vercelResponse (λ reason,
         console_error "Error deleting domain from Vercel" reason domain workspaceId) ;;;
       (if_rejected prismaResponse (λ reason,
          console_error "Error deleting domain from Prisma" reason domain workspaceId) ;;;
        (if_rejected qstashResponse (λ reason,
           console_error "Error publishing to Qstash" reason domain workspaceId) ;;;
         ret VUndefined)))
  | _ => throw "TypeError"
  end.

(** ** Scenarios *)

Definition no_faults : Env :=
  {| R2_URL := "https://r2.test";
     APP_DOMAIN_WITH_NGROK := "https://app.test";
     toLowerCase := ascii_toLowerCase;
     storage_delete_landed := λ _, true;
     findMany_rejects := None; recordLink_rejects := None;
     storage_delete_rejects := λ _, None; pipeline_exec_rejects := None;
     deleteMany_rejects := None; project_update_rejects := None;
     count_rejects := None; publishJSON_rejects := None;
     domain_delete_rejects := None; vercel_rejects := None;
     domain_update_rejects := None; updateMany_rejects := None |}.

(** The bucket rejects every deletion. *)
Definition r2_down : Env :=
  {| R2_URL := "https://r2.test";
     APP_DOMAIN_WITH_NGROK := "https://app.test";
     toLowerCase := ascii_toLowerCase;
     storage_delete_landed := λ _, true;
     findMany_rejects := None; recordLink_rejects := None;
     storage_delete_rejects := λ _, Some "R2 unavailable";
     pipeline_exec_rejects := None;
     deleteMany_rejects := None; project_update_rejects := None;
     count_rejects := None; publishJSON_rejects := None;
     domain_delete_rejects := None; vercel_rejects := None;
     domain_update_rejects := None; updateMany_rejects := None |}.

(** The scheduler rejects the message. *)
Definition qstash_down : Env :=
  {| R2_URL := "https://r2.test";
     APP_DOMAIN_WITH_NGROK := "https://app.test";
     toLowerCase := ascii_toLowerCase;
     storage_delete_landed := λ _, true;
     findMany_rejects := None; recordLink_rejects := None;
     storage_delete_rejects := λ _, None; pipeline_exec_rejects := None;
     deleteMany_rejects := None; project_update_rejects := None;
     count_rejects := None; publishJSON_rejects := Some "QStash unavailable";
     domain_delete_rejects := None; vercel_rejects := None;
     domain_update_rejects := None; updateMany_rejects := None |}.

(** Vercel rejects the release of the name. *)
Definition vercel_down : Env :=
  {| R2_URL := "https://r2.test";
     APP_DOMAIN_WITH_NGROK := "https://app.test";
     toLowerCase := ascii_toLowerCase;
     storage_delete_landed := λ _, true;
     findMany_rejects := None; recordLink_rejects := None;
     storage_delete_rejects := λ _, None; pipeline_exec_rejects := None;
     deleteMany_rejects := None; project_update_rejects := None;
     count_rejects := None; publishJSON_rejects := None;
     domain_delete_rejects := None; vercel_rejects := Some "Vercel unavailable";
     domain_update_rejects := None; updateMany_rejects := None |}.

(** The relational store rejects the bulk delete. *)
Definition mysql_delete_down : Env :=
  {| R2_URL := "https://r2.test";
     APP_DOMAIN_WITH_NGROK := "https://app.test";
     toLowerCase := ascii_toLowerCase;
     storage_delete_landed := λ _, true;
     findMany_rejects := None; recordLink_rejects := None;
     storage_delete_rejects := λ _, None; pipeline_exec_rejects := None;
     deleteMany_rejects := Some "MySQL unavailable"; project_update_rejects := None;
     count_rejects := None; publishJSON_rejects := None;
     domain_delete_rejects := None; vercel_rejects := None;
     domain_update_rejects := None; updateMany_rejects := None |}.

Definition link_x : Link :=
  {| link_id := "l1"; link_domain := "go.example"; link_key := "x";
     link_url := "https://example.com"; 
     link_image := Some "https://r2.test/images/l1.png";
     link_tags := [{| tag_id := "t1" |}];
     link_createdAt := 1700000000; link_projectId := Some "ws_1" |}.

Definition link_y : Link :=
  {| link_id := "l2"; link_domain := "go.example"; link_key := "Y";
     link_url := "https://example.org"; link_image := None;
     link_tags := []; link_createdAt := 1700000001;
     link_projectId := Some "ws_1" |}.

Definition world_of (links : list Link) : World :=
  {| link_table := links;
     domain_table := [{| domain_slug := "go.example"; domain_projectId := Some "ws_1" |}];
     linksUsage := {[ "ws_1" := 5 ]};
     redis_keys := {[ "go.example:x"; "go.example:y" ]};
     r2_objects := {[ "images/l1.png" ]};
     tinybird := []; qstash_queue := [];
     vercel_domains := {[ "go.example" ]};
     console := []; unhandled := []; requests := [] |}.

(** The relational store rejects the query for links. *)
Definition findMany_down : Env :=
  {| R2_URL := "https://r2.test";
     APP_DOMAIN_WITH_NGROK := "https://app.test";
     toLowerCase := ascii_toLowerCase;
     storage_delete_landed := λ _, true;
     findMany_rejects := Some "MySQL unavailable";
     recordLink_rejects := None;
     storage_delete_rejects := λ _, None;
     pipeline_exec_rejects := None;
     deleteMany_rejects := None;
     project_update_rejects := None;
     count_rejects := None;
     publishJSON_rejects := None;
     domain_delete_rejects := None;
     vercel_rejects := None;
     domain_update_rejects := None;
     updateMany_rejects := None |}.

(** The relational store rejects the count. *)
Definition count_down : Env :=
  {| R2_URL := "https://r2.test";
     APP_DOMAIN_WITH_NGROK := "https://app.test";
     toLowerCase := ascii_toLowerCase;
     storage_delete_landed := λ _, true;
     findMany_rejects := None;
     recordLink_rejects := None;
     storage_delete_rejects := λ _, None;
     pipeline_exec_rejects := None;
     deleteMany_rejects := None;
     project_update_rejects := None;
     count_rejects := Some "MySQL unavailable";
     publishJSON_rejects := None;
     domain_delete_rejects := None;
     vercel_rejects := None;
     domain_update_rejects := None;
     updateMany_rejects := None |}.

(** The relational store rejects the deletion of the domain row. *)
Definition domain_delete_down : Env :=
  {| R2_URL := "https://r2.test";
     APP_DOMAIN_WITH_NGROK := "https://app.test";
     toLowerCase := ascii_toLowerCase;
     storage_delete_landed := λ _, true;
     findMany_rejects := None;
     recordLink_rejects := None;
     storage_delete_rejects := λ _, None;
     pipeline_exec_rejects := None;
     deleteMany_rejects := None;
     project_update_rejects := None;
     count_rejects := None;
     publishJSON_rejects := None;
     domain_delete_rejects := Some "MySQL unavailable";
     vercel_rejects := None;
     domain_update_rejects := None;
     updateMany_rejects := None |}.

(** The relational store rejects the bulk update of the links. *)
Definition updateMany_down : Env :=
  {| R2_URL := "https://r2.test";
     APP_DOMAIN_WITH_NGROK := "https://app.test";
     toLowerCase := ascii_toLowerCase;
     storage_delete_landed := λ _, true;
     findMany_rejects := None;
     recordLink_rejects := None;
     storage_delete_rejects := λ _, None;
     pipeline_exec_rejects := None;
     deleteMany_rejects := None;
     project_update_rejects := None;
     count_rejects := None;
     publishJSON_rejects := None;
     domain_delete_rejects := None;
     vercel_rejects := None;
     domain_update_rejects := None;
     updateMany_rejects := Some "MySQL unavailable" |}.

(** Tinybird, the bucket, Redis and the counter update all reject. *)
Definition side_stores_down : Env :=
  {| R2_URL := "https://r2.test";
     APP_DOMAIN_WITH_NGROK := "https://app.test";
     toLowerCase := ascii_toLowerCase;
     storage_delete_landed := λ _, true;
     findMany_rejects := None;
     recordLink_rejects := Some "Tinybird unavailable";
     storage_delete_rejects := λ _, Some "R2 unavailable";
     pipeline_exec_rejects := Some "Redis unavailable";
     deleteMany_rejects := None;
     project_update_rejects := Some "MySQL unavailable";
     count_rejects := None;
     publishJSON_rejects := None;
     domain_delete_rejects := None;
     vercel_rejects := None;
     domain_update_rejects := None;
     updateMany_rejects := None |}.

(** A link of another domain. *)
Definition link_z : Link :=
  {| link_id := "l3"; link_domain := "other.example"; link_key := "z";
     link_url := "https://example.net"; link_image := None;
     link_tags := []; link_createdAt := 1700000002;
     link_projectId := Some "ws_1" |}.

(** ** Vocabulary of the statements *)

(** The way a call settles when only the environment can make it fail. *)
Definition settles {A} (rejects : option Reason) (v : A) : Settled A :=
  match rejects with
  | Some e => Rejected e
  | None => Fulfilled v
  end.

(** The paths given to [storage.delete] for a batch. *)
Definition r2_paths (E : Env) (links : list Link) : list string :=
  omap (r2_path E) (List.filter (image_in_r2 E) links).

(** The bucket accepted the deletion of the path and it has landed. *)
Definition gone (E : Env) (path : string) : bool :=
  match storage_delete_rejects E path with
  | None => storage_delete_landed E path
  | Some _ => false
  end.

Definition rejection {A} (p : Promise A) : option Reason :=
  match p with
  | Rejected e => Some e
  | Fulfilled _ => None
  end.

Definition is_rejected {A} (p : Settled A) : bool :=
  match p with
  | Rejected _ => true
  | Fulfilled _ => false
  end.

(** The requests a computation adds to the log of [w]. *)
Definition issued {A} (m : M A) (w : World) : list Request :=
  drop (length (requests w)) (requests (m w).2).

Definition is_storage_delete (r : Request) : bool :=
  match r with ReqStorageDelete _ => true | _ => false end.

Definition is_record_link (r : Request) : bool :=
  match r with ReqRecordLink _ => true | _ => false end.

Definition is_pipeline_exec (r : Request) : bool :=
  match r with ReqPipelineExec _ => true | _ => false end.

Definition is_project_decrement (r : Request) : bool :=
  match r with ReqProjectDecrement _ _ => true | _ => false end.

Definition is_domain_delete (r : Request) : bool :=
  match r with ReqDomainDelete _ => true | _ => false end.

(** The batch that [findMany] with [take: 1] selects. *)
Definition batch (domain : string) (w : World) : list Link :=
  firstn 1 (List.filter (where_domain domain) (link_table w)).

(** The number of links of the domain in a world. *)
Definition remaining (domain : string) (w : World) : Z :=
  Z.of_nat (length (List.filter (where_domain domain) (link_table w))).

(** The world once the fan-out over [links] has settled and its
    rejections were reported. *)
Definition settled_world (E : Env) (domain workspaceId : string)
    (links : list Link) (w : World) : World :=
  ((response <- fanOut E workspaceId links ;;
    report domain workspaceId response) w).2.

(** The specification's wording of a link's own asset: the image is
    present and starts with the base URL followed by [/images/] and the id
    of the link; its path is the URL without the base URL and its slash. *)
Definition own_asset_path (E : Env) (link : Link) : option string :=
  match link_image link with
  | Some image =>
      if String.prefix (R2_URL E +:+ "/images/" +:+ link_id link) image
      then Some (string_drop (String.length (R2_URL E +:+ "/")) image)
      else None
  | None => None
  end.

(** The message published for a domain and workspace. *)
Definition deletion_job (E : Env) (workspaceId domain : string) (delay : option Number) : Job :=
  {| job_url := APP_DOMAIN_WITH_NGROK E +:+ "/api/cron/domains/delete";
     job_delay := delay;
     job_workspaceId := workspaceId;
     job_domain := domain |}.

(** What [linksUsage] is after the decrement was requested. *)
Definition decremented (E : Env) (workspaceId : string) (n : Z)
    (usage : gmap string Z) : gmap string Z :=
  match project_update_rejects E, usage !! workspaceId with
  | None, Some u => <[workspaceId := u - n]> usage
  | _, _ => usage
  end.

Definition decrement_settles (E : Env) (workspaceId : string)
    (usage : gmap string Z) : Settled Value :=
  match project_update_rejects E, usage !! workspaceId with
  | Some e, _ => Rejected e
  | None, Some _ => Fulfilled VResponse
  | None, None => Rejected P2025
  end.

(** The promises of the [storage.delete] calls of a batch. *)
Definition storage_promises (E : Env) (links : list Link) : list (Promise unit) :=
  map (λ p, settles (storage_delete_rejects E p) tt) (r2_paths E links).

(** What [Promise.allSettled] yields in the fan-out. *)
Definition fanOut_response (E : Env) (workspaceId : string) (links : list Link)
    (w : World) : list (Settled Value) :=
  [settles (recordLink_rejects E) VResponse;
   Fulfilled (VPromises (storage_promises E links));
   settles (pipeline_exec_rejects E) VResponse;
   settles (deleteMany_rejects E)
     (VCount (Z.of_nat (length (List.filter (id_in (map link_id links)) (link_table w)))));
   decrement_settles E workspaceId (linksUsage w)].

(** The world the fan-out leaves. *)
Definition fanOut_world (E : Env) (workspaceId : string) (links : list Link)
    (w : World) : World :=
  {| link_table := match deleteMany_rejects E with
                   | Some _ => link_table w
                   | None => List.filter (λ l, negb (id_in (map link_id links) l))
                                         (link_table w)
                   end;
     domain_table := domain_table w;
     linksUsage := decremented E workspaceId (Z.of_nat (length links)) (linksUsage w);
     redis_keys := match pipeline_exec_rejects E with
                   | Some _ => redis_keys w
                   | None => redis_keys w ∖ list_to_set (map (cache_key E) links)
                   end;
     r2_objects := r2_objects w ∖ list_to_set (List.filter (gone E) (r2_paths E links));
     tinybird := match recordLink_rejects E with
                 | Some _ => tinybird w
                 | None => tinybird w ++ map (deleted_event workspaceId) links
                 end;
     qstash_queue := qstash_queue w;
     vercel_domains := vercel_domains w;
     console := console w;
     unhandled := unhandled w ++ omap rejection (storage_promises E links);
     requests := requests w ++
                 ReqRecordLink (map (deleted_event workspaceId) links)
                 :: map ReqStorageDelete (r2_paths E links) ++
                    [ReqPipelineExec (map (cache_key E) links);
                     ReqLinkDeleteMany (map link_id links);
                     ReqProjectDecrement workspaceId (Z.of_nat (length links))] |}.

(** The [console.error] lines of lines 80-88. *)
Definition report_entries (domain workspaceId : string)
    (response : list (Settled Value)) : list LogEntry :=
  map (λ reason, {| log_message := "Error deleting domain and links";
                    log_reason := reason; log_domain := domain;
                    log_workspaceId := workspaceId |})
      (omap rejection response).

(** What [converge] adds to the log: nothing, one publish or one delete. *)
Definition converge_tail (E : Env) (domain workspaceId : string) (w : World)
    : list Request :=
  match count_rejects E with
  | Some _ => []
  | None => if remaining domain w >? 0
            then [ReqPublishJSON (deletion_job E workspaceId domain (Some 2))]
            else [ReqDomainDelete domain]
  end.

(** What [markDomainAsDeleted] adds to the log. *)
Definition detach_requests (E : Env) (domain workspaceId : string) : list Request :=
  [ReqRemoveDomainFromVercel domain;
   ReqDomainClearProject domain;
   ReqLinkClearProject domain;
   ReqPublishJSON (deletion_job E workspaceId domain None)].

(** How [prisma.domain.update] settles. *)
Definition domain_update_settles (E : Env) (domain : string) (w : World)
    : Settled Value :=
  match domain_update_rejects E with
  | Some e => Rejected e
  | None => if existsb (has_slug domain) (domain_table w)
            then Fulfilled VResponse else Rejected P2025
  end.

Definition log_if_rejected {A} (message domain workspaceId : string)
    (p : Settled A) : list LogEntry :=
  match p with
  | Rejected reason => [{| log_message := message; log_reason := reason;
                           log_domain := domain; log_workspaceId := workspaceId |}]
  | Fulfilled _ => []
  end.

(** The world [markDomainAsDeleted] leaves. *)
Definition detached_world (E : Env) (domain workspaceId : string) (w : World) : World :=
  {| link_table := match updateMany_rejects E with
                   | Some _ => link_table w
                   | None => map (clear_link_project domain) (link_table w)
                   end;
     domain_table := match domain_update_settles E domain w with
                     | Fulfilled _ => map (clear_domain_project domain) (domain_table w)
                     | Rejected _ => domain_table w
                     end;
     linksUsage := linksUsage w;
     redis_keys := redis_keys w;
     r2_objects := r2_objects w;
     tinybird := tinybird w;
     qstash_queue := match publishJSON_rejects E with
                     | Some _ => qstash_queue w
                     | None => qstash_queue w ++ [deletion_job E workspaceId domain None]
                     end;
     vercel_domains := match vercel_rejects E with
                       | Some _ => vercel_domains w
                       | None => vercel_domains w ∖ {[domain]}
                       end;
     console := console w ++
       log_if_rejected "Error deleting domain from Vercel" domain workspaceId
         (settles (vercel_rejects E) VResponse) ++
       log_if_rejected "Error deleting domain from Prisma" domain workspaceId
         (domain_update_settles E domain w) ++
       log_if_rejected "Error publishing to Qstash" domain workspaceId
         (settles (updateMany_rejects E) VResponse);
     unhandled := unhandled w;
     requests := requests w ++ detach_requests E domain workspaceId |}.

(** The relational store and the scheduler accept every call. *)
Definition accepts (E : Env) : Prop :=
  findMany_rejects E = None ∧ deleteMany_rejects E = None ∧
  count_rejects E = None ∧ publishJSON_rejects E = None ∧
  domain_delete_rejects E = None.

(** [k] invocations of [deleteDomainAndLinks] in a row on the same domain
    and workspace, as redelivery of the queued message causes them. *)
Fixpoint runs (E : Env) (domain workspaceId : string) (k : nat) (w : World) : World :=
  match k with
  | O => w
  | S k' => runs E domain workspaceId k' (deleteDomainAndLinks E domain workspaceId w).2
  end.

Definition is_link_deleteMany (r : Request) : bool :=
  match r with ReqLinkDeleteMany _ => true | _ => false end.

(** The [console.error] line of lines 82-86 for one reason. *)
Definition deletion_log (domain workspaceId : string) (reason : Reason) : LogEntry :=
  {| log_message := "Error deleting domain and links"; log_reason := reason;
     log_domain := domain; log_workspaceId := workspaceId |}.

(** The row that stays when the link with the id of [l] is deleted. *)
Definition other_id (l : Link) (x : Link) : bool :=
  negb (String.eqb (link_id x) (link_id l)).

(** ** Strings *)

Lemma prefix_nil s : String.prefix EmptyString s = true.
Proof. by destruct s. Qed.

Lemma prefix_cons c p d s :
  String.prefix (String c p) (String d s) = true ↔ c = d ∧ String.prefix p s = true.
Proof.
  simpl. destruct (Ascii.ascii_dec c d) as [->|Hne]; [tauto|].
  split; [discriminate | intros [? _]; contradiction].
Qed.

Lemma prefix_spec p s :
  String.prefix p s = true ↔ s = p +:+ string_drop (String.length p) s.
Proof.
  revert s. induction p as [|c p IH]; intros s.
  - simpl. rewrite prefix_nil. tauto.
  - destruct s as [|d s].
    + simpl. split; discriminate.
    + rewrite prefix_cons, IH.
      change (String c p +:+ ?t) with (String c (p +:+ t)).
      change (string_drop (String.length (String c p)) (String d s))
        with (string_drop (String.length p) s).
      split.
      * intros [-> Hs]. f_equal. exact Hs.
      * intros Heq. injection Heq as -> Hs. split; [reflexivity | exact Hs].
Qed.

Lemma prefix_app_l p q s :
  String.prefix (p +:+ q) s = true → String.prefix p s = true.
Proof.
  revert s. induction p as [|c p IH]; intros s; [by rewrite prefix_nil|].
  destruct s as [|d s]; [discriminate|].
  change (String c p +:+ q) with (String c (p +:+ q)).
  rewrite !prefix_cons. intros [-> H]. split; [reflexivity | by apply IH].
Qed.

Lemma prefix_app p t : String.prefix p (p +:+ t) = true.
Proof.
  induction p as [|c p IH]; [apply prefix_nil|].
  change (String c p +:+ t) with (String c (p +:+ t)).
  by apply prefix_cons.
Qed.

Lemma string_drop_app p t : string_drop (String.length p) (p +:+ t) = t.
Proof. induction p as [|c p IH]; [reflexivity | exact IH]. Qed.

Lemma string_app_assoc (a b c : string) : (a +:+ b) +:+ c = a +:+ (b +:+ c).
Proof.
  induction a as [|x a IH]; [reflexivity|].
  change (String x ((a +:+ b) +:+ c) = String x (a +:+ (b +:+ c))).
  by rewrite IH.
Qed.

(** Replacing a pattern that is a prefix strips that prefix. *)
Lemma replace_prefix s pat :
  String.prefix pat s = true →
  replace s pat EmptyString = string_drop (String.length pat) s.
Proof. intros H. destruct s; simpl; simpl in H; by rewrite H. Qed.

(** ** Running computations *)

(** Setters are evaluated innermost first; unfolding them outermost
    first would copy the world once per field at every level. *)
Ltac world_cbv :=
  cbv [issue set_link_table set_domain_table set_linksUsage set_redis_keys
       set_r2_objects set_tinybird set_qstash_queue set_vercel_domains
       set_console set_unhandled set_requests
       link_table domain_table linksUsage redis_keys r2_objects tinybird
       qstash_queue vercel_domains console unhandled requests].

Ltac world_cbv_in H :=
  cbv [issue set_link_table set_domain_table set_linksUsage set_redis_keys
       set_r2_objects set_tinybird set_qstash_queue set_vercel_domains
       set_console set_unhandled set_requests
       link_table domain_table linksUsage redis_keys r2_objects tinybird
       qstash_queue vercel_domains console unhandled requests] in H.

Lemma bind_Return {A B} (m : M A) (k : A → M B) w a w' :
  m w = (Return a, w') → bind m k w = k a w'.
Proof. intros H. unfold bind. by rewrite H. Qed.

Lemma image_in_r2_path E link :
  image_in_r2 E link = true → is_Some (r2_path E link).
Proof.
  unfold image_in_r2, r2_path. destruct (link_image link); [eauto | discriminate].
Qed.

(** The array of [storage.delete] promises: one request per link, in
    order; it never throws on links that have an image. *)
Lemma mapM_delete_image E (ls : list Link) w :
  Forall (λ l, is_Some (r2_path E l)) ls →
  mapM (delete_image E) ls w =
    (Return (map (λ p, settles (storage_delete_rejects E p) tt) (omap (r2_path E) ls)),
     set_requests (λ rs, rs ++ map ReqStorageDelete (omap (r2_path E) ls))
       (set_r2_objects
          (λ os, os ∖ list_to_set (List.filter (gone E) (omap (r2_path E) ls))) w)).
Proof.
  intros Hall. revert w. induction Hall as [|l ls [path Hp] _ IH]; intros w.
  - destruct w. unfold ret. world_cbv. cbn [omap list_omap map List.filter list_to_set foldr].
    do 2 f_equal; [by rewrite difference_empty_L | by rewrite app_nil_r].
  - cbn [mapM]. unfold delete_image at 1. rewrite Hp.
    unfold bind at 1, storage_delete, remote.
    cbn [omap list_omap]. rewrite Hp. cbn [map List.filter].
    unfold gone at 1, settles at 1.
    destruct (storage_delete_rejects E path) as [e|] eqn:Hrej.
    + rewrite (bind_Return _ _ _ _ _ (IH _)). unfold ret.
      destruct w. world_cbv.
      do 2 f_equal. by rewrite <- app_assoc.
    + destruct (storage_delete_landed E path) eqn:Hland.
      * cbn -[mapM]. rewrite (bind_Return _ _ _ _ _ (IH _)). unfold ret.
        destruct w. world_cbv. cbn [list_to_set foldr].
        do 2 f_equal; [by rewrite difference_difference_l_L | by rewrite <- app_assoc].
      * cbn -[mapM]. rewrite (bind_Return _ _ _ _ _ (IH _)). unfold ret.
        destruct w. world_cbv.
        do 2 f_equal. by rewrite <- app_assoc.
Qed.

Lemma filter_image_in_r2 E links :
  Forall (λ l, is_Some (r2_path E l)) (List.filter (image_in_r2 E) links).
Proof.
  apply Forall_forall. intros l Hl. apply list_elem_of_In, List.filter_In in Hl as [_ Hl].
  by apply image_in_r2_path.
Qed.

(** [forEach] with [pipeline.del] collects one key per link, in order. *)
Lemma pipeline_keys E (links : list Link) :
  fold_left (λ pipeline link, pipeline_del pipeline (cache_key E link))
            links redis_pipeline = map (cache_key E) links.
Proof.
  unfold redis_pipeline.
  assert (∀ acc, fold_left (λ pipeline link, pipeline_del pipeline (cache_key E link))
                   links acc = acc ++ map (cache_key E) links) as H.
  { induction links as [|l links IH]; intros acc; simpl.
    - by rewrite app_nil_r.
    - rewrite IH. unfold pipeline_del. by rewrite <- app_assoc. }
  apply H.
Qed.

(** The fan-out in closed form: it always returns. *)
Lemma fanOut_run E workspaceId links w :
  fanOut E workspaceId links w =
    (Return (fanOut_response E workspaceId links w),
     fanOut_world E workspaceId links w).
Proof.
  unfold fanOut_response, fanOut_world, storage_promises.
  unfold fanOut. rewrite pipeline_keys.
  unfold bind at 1, recordLink, remote.
  pose proof (filter_image_in_r2 E links) as Hall.
  destruct (recordLink_rejects E) as [e1|];
    cbn [settles];
    rewrite (bind_Return _ _ _ _ _ (mapM_delete_image E _ _ Hall));
    fold (r2_paths E links);
    unfold bind, pipeline_exec, prisma_link_deleteMany, prisma_project_update,
      remote, unobserved, ret, allSettled, decrement_settles, decremented;
    destruct (pipeline_exec_rejects E) as [e3|];
    destruct (deleteMany_rejects E) as [e4|];
    destruct (project_update_rejects E) as [e5|];
    destruct w as [lt dt lu rk ro tb qq vd co un rq];
    world_cbv; try destruct (lu !! workspaceId) as [u|];
    do 2 f_equal; rewrite <- ?app_assoc; reflexivity.
Qed.

Lemma report_run domain workspaceId response w :
  report domain workspaceId response w =
    (Return tt, set_console (λ c, c ++ report_entries domain workspaceId response) w).
Proof.
  unfold report. revert w.
  induction response as [|promise response IH]; intros w.
  - destruct w. unfold forEach, ret. world_cbv. cbn [report_entries omap list_omap map].
    by rewrite app_nil_r.
  - cbn [forEach]. unfold report_entries. cbn [omap list_omap].
    destruct promise as [v|reason]; cbn [if_rejected rejection].
    + unfold bind at 1, ret at 1. apply IH.
    + unfold bind at 1, console_error. rewrite IH.
      destruct w. world_cbv. unfold report_entries. cbn [map].
      by rewrite <- app_assoc.
Qed.

Lemma settled_world_eq E domain workspaceId links w :
  settled_world E domain workspaceId links w =
    set_console
      (λ c, c ++ report_entries domain workspaceId
                   (fanOut_response E workspaceId links w))
      (fanOut_world E workspaceId links w).
Proof.
  unfold settled_world.
  rewrite (bind_Return _ _ _ _ _ (fanOut_run E workspaceId links w)).
  by rewrite report_run.
Qed.

(** After the fan-out the function runs [converge] from the settled world. *)
Lemma deleteDomainAndLinks_run E domain workspaceId w :
  findMany_rejects E = None →
  batch domain w ≠ [] →
  deleteDomainAndLinks E domain workspaceId w =
    converge E domain workspaceId
      (settled_world E domain workspaceId (batch domain w) w).
Proof.
  intros Hfind Hbatch. unfold deleteDomainAndLinks.
  assert ((p <- prisma_link_findMany E domain 1 ;; await p) w
          = (Return (batch domain w), w)) as Hrun.
  { unfold bind, prisma_link_findMany. by rewrite Hfind. }
  rewrite (bind_Return _ _ _ _ _ Hrun).
  destruct (batch domain w) as [|l ls] eqn:Hb; [done|].
  cbn [length Nat.eqb].
  rewrite (bind_Return _ _ _ _ _ (fanOut_run E workspaceId (l :: ls) w)).
  rewrite (bind_Return _ _ _ _ _ (report_run _ _ _ _)).
  by rewrite settled_world_eq.
Qed.

(** With no link of the domain the function returns at once. *)
Lemma deleteDomainAndLinks_empty E domain workspaceId w :
  findMany_rejects E = None →
  batch domain w = [] →
  deleteDomainAndLinks E domain workspaceId w = (Return VUndefined, w).
Proof.
  intros Hfind Hbatch. unfold deleteDomainAndLinks.
  assert ((p <- prisma_link_findMany E domain 1 ;; await p) w
          = (Return (batch domain w), w)) as Hrun.
  { unfold bind, prisma_link_findMany. by rewrite Hfind. }
  rewrite (bind_Return _ _ _ _ _ Hrun). by rewrite Hbatch.
Qed.

(** [converge] in closed form. *)
Lemma converge_run E domain workspaceId w :
  converge E domain workspaceId w =
    match count_rejects E with
    | Some e => (Throw e, w)
    | None =>
        if remaining domain w >? 0
        then
          let job := deletion_job E workspaceId domain (Some 2) in
          match publishJSON_rejects E with
          | Some e => (Throw e, issue (ReqPublishJSON job) w)
          | None => (Return VResponse,
                     set_qstash_queue (λ q, q ++ [job]) (issue (ReqPublishJSON job) w))
          end
        else
          match domain_delete_rejects E with
          | Some e => (Throw e, issue (ReqDomainDelete domain) w)
          | None =>
              if existsb (has_slug domain) (domain_table w)
              then (Return VUndefined,
                    set_domain_table (List.filter (λ d, negb (has_slug domain d)))
                      (issue (ReqDomainDelete domain) w))
              else (Throw P2025, issue (ReqDomainDelete domain) w)
          end
    end.
Proof.
  unfold converge, bind, prisma_link_count, remaining.
  destruct (count_rejects E) as [e|]; [reflexivity|].
  cbn [await ret].
  destruct (_ >? 0).
  - unfold queueDomainDeletion, async, bind, qstash_publishJSON, remote, deletion_job.
    cbn [Z.eqb].
    by destruct (publishJSON_rejects E).
  - unfold prisma_domain_delete, remote.
    destruct (domain_delete_rejects E); [reflexivity|].
    destruct w as [lt dt lu rk ro tb qq vd co un rq]. world_cbv.
    by destruct (existsb (has_slug domain) dt).
Qed.

(** ** Requests issued *)

Lemma issued_app {A} (m : M A) w tail :
  requests (m w).2 = requests w ++ tail → issued m w = tail.
Proof. intros H. unfold issued. rewrite H. apply drop_app_length. Qed.

Lemma filter_storage_deletes (f : Request → bool) paths :
  (∀ p, f (ReqStorageDelete p) = false) →
  List.filter f (map ReqStorageDelete paths) = [].
Proof.
  intros Hf. induction paths as [|p paths IH]; [reflexivity|].
  cbn [map List.filter]. by rewrite Hf.
Qed.

Lemma filter_only_storage_deletes paths :
  List.filter is_storage_delete (map ReqStorageDelete paths) = map ReqStorageDelete paths.
Proof.
  induction paths as [|p paths IH]; [reflexivity|].
  cbn [map List.filter is_storage_delete]. by rewrite IH.
Qed.

Lemma requests_fanOut E workspaceId links w :
  requests (fanOut E workspaceId links w).2 =
    requests w ++
    ReqRecordLink (map (deleted_event workspaceId) links)
    :: map ReqStorageDelete (r2_paths E links) ++
       [ReqPipelineExec (map (cache_key E) links);
        ReqLinkDeleteMany (map link_id links);
        ReqProjectDecrement workspaceId (Z.of_nat (length links))].
Proof. by rewrite fanOut_run. Qed.

Lemma requests_settled_world E domain workspaceId links w :
  requests (settled_world E domain workspaceId links w) =
    requests (fanOut E workspaceId links w).2.
Proof. rewrite settled_world_eq, fanOut_run. reflexivity. Qed.


(** [converge] touches the queue, the domain table and the log only. *)
Lemma converge_frame E domain workspaceId w :
  let w' := (converge E domain workspaceId w).2 in
  link_table w' = link_table w ∧ linksUsage w' = linksUsage w ∧
  redis_keys w' = redis_keys w ∧ r2_objects w' = r2_objects w ∧
  tinybird w' = tinybird w ∧ vercel_domains w' = vercel_domains w ∧
  console w' = console w ∧ unhandled w' = unhandled w ∧
  requests w' = requests w ++ converge_tail E domain workspaceId w.
Proof.
  rewrite converge_run. unfold converge_tail.
  destruct w as [lt dt lu rk ro tb qq vd co un rq].
  destruct (count_rejects E); [by world_cbv; rewrite app_nil_r|].
  destruct (_ >? 0).
  - by destruct (publishJSON_rejects E); world_cbv.
  - destruct (domain_delete_rejects E); [by world_cbv|].
    world_cbv. by destruct (existsb (has_slug domain) dt).
Qed.

(** [markDomainAsDeleted] in closed form: it always returns. *)
Lemma markDomainAsDeleted_run E domain workspaceId w :
  markDomainAsDeleted E domain workspaceId w =
    (Return VUndefined, detached_world E domain workspaceId w).
Proof.
  unfold markDomainAsDeleted, detached_world, domain_update_settles, detach_requests.
  unfold queueDomainDeletion, async, deletion_job.
  unfold bind, removeDomainFromVercel, prisma_domain_update, prisma_link_updateMany,
    qstash_publishJSON, remote, allSettled, console_error, ret.
  destruct w as [lt dt lu rk ro tb qq vd co un rq].
  destruct (vercel_rejects E) as [e1|];
    destruct (domain_update_rejects E) as [e2|];
    destruct (updateMany_rejects E) as [e3|];
    destruct (publishJSON_rejects E) as [e4|];
    world_cbv;
    try destruct (existsb (has_slug domain) dt);
    cbn [await throw ret map if_rejected settles log_if_rejected];
    world_cbv; do 2 f_equal; rewrite <- ?app_assoc, ?app_nil_r; reflexivity.
Qed.

(** ** The immediate-deletion pipeline *)

Section Pipeline.
Context (E : Env) (domain workspaceId : string) (w : World).

(** C10: when the locator finds no link of the domain, the function
    returns [undefined] at once and the world is exactly as it was: no
    event, no cache or object or row deletion, no counter change, no queued
    job, and the domain row still in place. *)
Theorem C10_empty_batch_is_a_no_op :
  findMany_rejects E = None →
  batch domain w = [] →
  (deleteDomainAndLinks E domain workspaceId w) = (Return VUndefined, w) ∧
  issued (deleteDomainAndLinks E domain workspaceId) w = [].
Proof.
  intros Hfind Hbatch.
  rewrite (deleteDomainAndLinks_empty _ _ _ _ Hfind Hbatch).
  split; [reflexivity|].
  apply issued_app. rewrite (deleteDomainAndLinks_empty _ _ _ _ Hfind Hbatch).
  by rewrite app_nil_r.
Qed.

(** C1: once the fan-out has settled, the links of the domain are counted
    in the world it left.  A positive count publishes the deletion job for
    the same domain and workspace with a delay of 2 and leaves the domain
    table alone; a zero count issues the deletion of the domain row, after
    which no row has that slug. *)
Theorem C1_convergence_decides :
  findMany_rejects E = None →
  batch domain w ≠ [] →
  count_rejects E = None →
  let links := batch domain w in
  let w1 := settled_world E domain workspaceId links w in
  let n := remaining domain w1 in
  let job := deletion_job E workspaceId domain (Some 2) in
  link_table w1 = match deleteMany_rejects E with
                  | Some _ => link_table w
                  | None => List.filter (λ l, negb (id_in (map link_id links) l))
                                        (link_table w)
                  end ∧
  (n > 0 →
     requests (deleteDomainAndLinks E domain workspaceId w).2 = requests w1 ++ [ReqPublishJSON job] ∧
     domain_table (deleteDomainAndLinks E domain workspaceId w).2 = domain_table w ∧
     (publishJSON_rejects E = None →
        (deleteDomainAndLinks E domain workspaceId w).1 = Return VResponse ∧ qstash_queue (deleteDomainAndLinks E domain workspaceId w).2 = qstash_queue w ++ [job])) ∧
  (n = 0 →
     requests (deleteDomainAndLinks E domain workspaceId w).2 = requests w1 ++ [ReqDomainDelete domain] ∧
     qstash_queue (deleteDomainAndLinks E domain workspaceId w).2 = qstash_queue w ∧
     (domain_delete_rejects E = None →
        (∀ d, d ∈ domain_table (deleteDomainAndLinks E domain workspaceId w).2 → domain_slug d ≠ domain) ∧
        (existsb (has_slug domain) (domain_table w) = true →
           (deleteDomainAndLinks E domain workspaceId w).1 = Return VUndefined))).
Proof.
  intros Hfind Hbatch Hcount links w1 n job.
  rewrite (deleteDomainAndLinks_run _ _ _ _ Hfind Hbatch).
  fold links. fold w1. rewrite converge_run, Hcount. fold n job.
  assert (domain_table w1 = domain_table w ∧ qstash_queue w1 = qstash_queue w
          ∧ link_table w1 = match deleteMany_rejects E with
                  | Some _ => link_table w
                  | None => List.filter (λ l, negb (id_in (map link_id links) l))
                                        (link_table w)
                  end) as (Hdt & Hqq & Hlt).
  { subst w1. rewrite settled_world_eq. unfold fanOut_world. by world_cbv. }
  split; [exact Hlt|]. split.
  - intros Hn. apply Z.gtb_gt in Hn. rewrite Hn.
    destruct (publishJSON_rejects E) as [e|].
    + cbn [fst snd]. rewrite <- Hdt. destruct w1. world_cbv. done.
    + cbn [fst snd]. rewrite <- Hdt, <- Hqq. destruct w1. world_cbv. done.
  - intros Hn. rewrite Hn. cbn [Z.gtb Z.compare].
    destruct (domain_delete_rejects E) as [e|].
    + cbn [fst snd]. rewrite <- Hqq. destruct w1. world_cbv. done.
    + rewrite <- Hqq, <- Hdt.
      destruct (existsb (has_slug domain) (domain_table w1)) eqn:Hex;
        cbn [fst snd]; destruct w1 as [lt dt lu rk ro tb qq vd co un rq];
        world_cbv; world_cbv_in Hex; (split; [reflexivity|]);
        (split; [reflexivity|]); intros _; (split; [|done]).
      * intros d Hd. apply list_elem_of_In, List.filter_In in Hd as [_ Hd].
        unfold has_slug in Hd. apply negb_true_iff, String.eqb_neq in Hd. done.
      * intros d Hd Heq.
        assert (existsb (has_slug domain) dt = true) as Habs; [|congruence].
        apply existsb_exists. exists d. split; [by apply list_elem_of_In|].
        unfold has_slug. by apply String.eqb_eq.
Qed.

(** C4, as the code has it: when links remain and the scheduler rejects
    the job, the function throws the scheduler's reason.  It issues no
    deletion of the domain row, the domain table and the queue are as
    before, and it reports nothing about the failure itself. *)
Theorem C4_enqueue_failure_propagates (e : Reason) :
  findMany_rejects E = None →
  batch domain w ≠ [] →
  count_rejects E = None →
  let w1 := settled_world E domain workspaceId (batch domain w) w in
  remaining domain w1 > 0 →
  publishJSON_rejects E = Some e →
  (deleteDomainAndLinks E domain workspaceId w).1 = Throw e ∧
  domain_table (deleteDomainAndLinks E domain workspaceId w).2 = domain_table w ∧
  qstash_queue (deleteDomainAndLinks E domain workspaceId w).2 = qstash_queue w ∧
  console (deleteDomainAndLinks E domain workspaceId w).2 = console w1 ∧
  List.filter is_domain_delete
    (issued (deleteDomainAndLinks E domain workspaceId) w) = [].
Proof.
  intros Hfind Hbatch Hcount w1 Hn Hpub.
  assert (domain_table w1 = domain_table w ∧ qstash_queue w1 = qstash_queue w)
    as (Hdt & Hqq).
  { subst w1. rewrite settled_world_eq. unfold fanOut_world. by world_cbv. }
  assert (requests (deleteDomainAndLinks E domain workspaceId w).2 = requests w ++
            (ReqRecordLink (map (deleted_event workspaceId) (batch domain w))
             :: map ReqStorageDelete (r2_paths E (batch domain w)) ++
                [ReqPipelineExec (map (cache_key E) (batch domain w));
                 ReqLinkDeleteMany (map link_id (batch domain w));
                 ReqProjectDecrement workspaceId
                   (Z.of_nat (length (batch domain w)))]) ++
            [ReqPublishJSON (deletion_job E workspaceId domain (Some 2))]) as Hreq.
  { rewrite (deleteDomainAndLinks_run _ _ _ _ Hfind Hbatch). fold w1.
    destruct (converge_frame E domain workspaceId w1) as (_&_&_&_&_&_&_&_&->).
    unfold converge_tail. rewrite Hcount. apply Z.gtb_gt in Hn. rewrite Hn.
    subst w1. rewrite requests_settled_world, requests_fanOut.
    by rewrite <- app_assoc. }
  rewrite (issued_app _ _ _ Hreq).
  rewrite (deleteDomainAndLinks_run _ _ _ _ Hfind Hbatch). fold w1.
  rewrite converge_run, Hcount. apply Z.gtb_gt in Hn. rewrite Hn, Hpub.
  cbn [fst snd]. rewrite <- Hdt, <- Hqq.
  repeat split; try (by destruct w1; world_cbv).
  rewrite List.filter_app. cbn [List.filter is_domain_delete].
  rewrite List.filter_app, filter_storage_deletes by done. reflexivity.
Qed.

End Pipeline.

Lemma C10_witness :
  (findMany_rejects no_faults = None ∧ batch "go.example" (world_of []) = []) ∧
  deleteDomainAndLinks no_faults "go.example" "ws_1" (world_of [])
    = (Return VUndefined, world_of []) ∧
  issued (deleteDomainAndLinks no_faults "go.example" "ws_1") (world_of []) = [].
Proof.
  split; [split; reflexivity|].
  apply (C10_empty_batch_is_a_no_op no_faults "go.example" "ws_1" (world_of []));
    reflexivity.
Defined.

Lemma C1_witness :
  let w := world_of [link_x; link_y] in
  let run := deleteDomainAndLinks no_faults "go.example" "ws_1" w in
  (findMany_rejects no_faults = None ∧ batch "go.example" w ≠ [] ∧
   count_rejects no_faults = None) ∧
  remaining "go.example"
    (settled_world no_faults "go.example" "ws_1" (batch "go.example" w) w) > 0 ∧
  qstash_queue run.2 = [deletion_job no_faults "ws_1" "go.example" (Some 2)] ∧
  domain_table run.2 = domain_table w.
Proof.
  intros w run.
  assert (batch "go.example" w ≠ []) as Hbatch by (vm_compute; discriminate).
  assert (remaining "go.example"
    (settled_world no_faults "go.example" "ws_1" (batch "go.example" w) w) > 0)
    as Hn by (vm_compute; reflexivity).
  split; [by repeat split|]. split; [exact Hn|].
  destruct (C1_convergence_decides no_faults "go.example" "ws_1" w
              eq_refl Hbatch eq_refl) as (_ & Hpos & _).
  destruct (Hpos Hn) as (_ & Hdt & Hq).
  destruct (Hq eq_refl) as (_ & Hqq).
  split; [exact Hqq | exact Hdt].
Defined.

(** C2 at a domain without links: the call returns [undefined], issues no
    request, and the row of the domain is still in the table. *)
Theorem C2_row_survives_without_links :
  let w := world_of [] in
  let run := deleteDomainAndLinks no_faults "go.example" "ws_1" w in
  batch "go.example" w = [] ∧
  run.1 = Return VUndefined ∧
  requests run.2 = [] ∧
  domain_table run.2 =
    [{| domain_slug := "go.example"; domain_projectId := Some "ws_1" |}].
Proof. vm_compute. repeat split. Qed.

(** C3 at a link whose image is in the bucket while the bucket rejects
    the deletion: all five settled results are fulfilled, the second with
    the array holding the rejected promise; nothing is reported, and the
    rejection stays unhandled. *)
Theorem C3_storage_rejection_is_not_collected :
  let w := world_of [link_x] in
  image_in_r2 r2_down link_x = true ∧
  (fanOut r2_down "ws_1" [link_x] w).1 =
    Return [Fulfilled VResponse;
            Fulfilled (VPromises [Rejected "R2 unavailable"]);
            Fulfilled VResponse;
            Fulfilled (VCount 1);
            Fulfilled VResponse] ∧
  existsb is_rejected (fanOut_response r2_down "ws_1" [link_x] w) = false ∧
  console (deleteDomainAndLinks r2_down "go.example" "ws_1" w).2 = [] ∧
  unhandled (deleteDomainAndLinks r2_down "go.example" "ws_1" w).2 = ["R2 unavailable"].
Proof. vm_compute. repeat split. Qed.

(** C4 refuted: with two links and a scheduler that rejects the job, the
    function throws. *)
Lemma C4_counterexample :
  let w := world_of [link_x; link_y] in
  publishJSON_rejects qstash_down = Some "QStash unavailable" ∧
  remaining "go.example"
    (settled_world qstash_down "go.example" "ws_1" (batch "go.example" w) w) > 0 ∧
  (deleteDomainAndLinks qstash_down "go.example" "ws_1" w).1
    = Throw "QStash unavailable".
Proof. vm_compute. repeat split. Qed.

Lemma C4_witness :
  let w := world_of [link_x; link_y] in
  let run := deleteDomainAndLinks qstash_down "go.example" "ws_1" w in
  (findMany_rejects qstash_down = None ∧ batch "go.example" w ≠ [] ∧
   count_rejects qstash_down = None ∧
   remaining "go.example"
     (settled_world qstash_down "go.example" "ws_1" (batch "go.example" w) w) > 0 ∧
   publishJSON_rejects qstash_down = Some "QStash unavailable") ∧
  run.1 = Throw "QStash unavailable" ∧
  domain_table run.2 = domain_table w.
Proof.
  intros w run.
  assert (batch "go.example" w ≠ []) as Hbatch by (vm_compute; discriminate).
  assert (remaining "go.example"
    (settled_world qstash_down "go.example" "ws_1" (batch "go.example" w) w) > 0)
    as Hn by (vm_compute; reflexivity).
  split; [by repeat split|].
  destruct (C4_enqueue_failure_propagates qstash_down "go.example" "ws_1" w
              "QStash unavailable" eq_refl Hbatch eq_refl Hn eq_refl)
    as (Hr & Hdt & _).
  split; [exact Hr | exact Hdt].
Defined.

(** ** The fan-out *)

Lemma issued_fanOut E workspaceId links w :
  issued (fanOut E workspaceId links) w =
    ReqRecordLink (map (deleted_event workspaceId) links)
    :: map ReqStorageDelete (r2_paths E links) ++
       [ReqPipelineExec (map (cache_key E) links);
        ReqLinkDeleteMany (map link_id links);
        ReqProjectDecrement workspaceId (Z.of_nat (length links))].
Proof. apply issued_app, requests_fanOut. Qed.

(** The code's filter and [replace] select and strip as the claim says. *)
Lemma r2_paths_own_assets E links :
  r2_paths E links = omap (own_asset_path E) links.
Proof.
  unfold r2_paths. induction links as [|l links IH]; [reflexivity|].
  cbn [List.filter omap list_omap].
  unfold image_in_r2 at 1, own_asset_path at 1, startsWith.
  destruct (link_image l) as [image|] eqn:Himg; [|exact IH].
  destruct (String.prefix _ image) eqn:Hpre; [|exact IH].
  cbn [omap list_omap]. unfold r2_path at 1. rewrite Himg.
  rewrite replace_prefix.
  - by rewrite <- IH.
  - apply (prefix_app_l _ ("images/" +:+ link_id l)).
    by rewrite string_app_assoc.
Qed.

Lemma own_asset_path_image E link path :
  own_asset_path E link = Some path →
  link_image link = Some (R2_URL E +:+ "/" +:+ path).
Proof.
  unfold own_asset_path. destruct (link_image link) as [image|]; [|discriminate].
  destruct (String.prefix _ image) eqn:Hpre; [|discriminate].
  intros [= <-]. f_equal.
  assert (String.prefix (R2_URL E +:+ "/") image = true) as Hbase.
  { apply (prefix_app_l _ ("images/" +:+ link_id link)).
    by rewrite string_app_assoc. }
  apply prefix_spec in Hbase. rewrite string_app_assoc in Hbase. exact Hbase.
Qed.

(** An image stored under the base URL, [/images/] and the id is the
    link's own asset, with the rest of the URL as its path. *)
Lemma own_asset_path_of_url E link rest :
  link_image link = Some (R2_URL E +:+ "/images/" +:+ link_id link +:+ rest) →
  own_asset_path E link = Some ("images/" +:+ link_id link +:+ rest).
Proof.
  intros Himg. unfold own_asset_path. rewrite Himg.
  assert (R2_URL E +:+ "/images/" +:+ link_id link +:+ rest
          = (R2_URL E +:+ "/images/" +:+ link_id link) +:+ rest) as Hsplit.
  { by rewrite !string_app_assoc. }
  rewrite Hsplit at 1. rewrite prefix_app. f_equal.
  change ("/images/" +:+ ?t) with ("/" +:+ ("images/" +:+ t)).
  rewrite <- (string_app_assoc (R2_URL E) "/"). apply string_drop_app.
Qed.

Section FanOut.
Context (E : Env) (workspaceId : string) (links : list Link) (w : World).

(** C7: the fan-out never throws, whatever the images are; it issues one
    [storage.delete] for each link whose image is present and starts with
    the base URL, [/images/] and the id of the link, in order, and none for
    the other links; the path is the image URL without the base URL and its
    slash.  Nothing awaits these deletions: however many of them have
    landed when the fan-out returns, the bucket has lost no object but such
    paths. *)
Theorem C7_own_assets_are_deleted :
  (∃ response, (fanOut E workspaceId links w).1 = Return response) ∧
  List.filter is_storage_delete (issued (fanOut E workspaceId links) w)
    = map ReqStorageDelete (omap (own_asset_path E) links) ∧
  (∀ link, is_Some (own_asset_path E link) ↔
           ∃ image, link_image link = Some image ∧
                    startsWith image (R2_URL E +:+ "/images/" +:+ link_id link) = true) ∧
  (∀ link path, own_asset_path E link = Some path →
                link_image link = Some (R2_URL E +:+ "/" +:+ path)) ∧
  (∀ path, path ∈ r2_objects w →
           path ∉ r2_objects (fanOut E workspaceId links w).2 →
           path ∈ omap (own_asset_path E) links).
Proof.
  split; [rewrite fanOut_run; eauto|]. split.
  { rewrite issued_fanOut. cbn [List.filter is_storage_delete].
    rewrite List.filter_app, filter_only_storage_deletes.
    cbn [List.filter is_storage_delete].
    by rewrite app_nil_r, r2_paths_own_assets. }
  split.
  { intros link. unfold own_asset_path, startsWith.
    destruct (link_image link) as [image|].
    - destruct (String.prefix _ image) eqn:Hpre.
      + split; [eauto|]. intros _. eauto.
      + split; [intros [? [=]]|]. intros (image' & [= <-] & H). congruence.
    - split; [intros [? [=]]|]. intros (image' & [=] & _). }
  split; [apply own_asset_path_image|].
  intros path Hin Hout. rewrite fanOut_run in Hout. unfold fanOut_world in Hout.
  cbn [r2_objects snd] in Hout. rewrite <- r2_paths_own_assets.
  destruct (decide (path ∈ (list_to_set (List.filter (gone E) (r2_paths E links))
                            : gset string))) as [Hgone|Hstay].
  - apply elem_of_list_to_set, list_elem_of_In, List.filter_In in Hgone as [Hp _].
    by apply list_elem_of_In.
  - exfalso. apply Hout. by apply elem_of_difference.
Qed.

(** C8: the fan-out issues exactly one [recordLink] call; it carries one
    event per link of the batch, in order, with the link's id, domain, key,
    URL, the ids of its tags, the workspace id, the creation time and
    [deleted] set; when Tinybird accepts the call, those events are appended
    to what it holds. *)
Theorem C8_one_deleted_event_per_link :
  let events := map (deleted_event workspaceId) links in
  List.filter is_record_link (issued (fanOut E workspaceId links) w)
    = [ReqRecordLink events] ∧
  length events = length links ∧
  Forall2 (λ link ev,
             ev_link_id ev = link_id link ∧
             ev_domain ev = link_domain link ∧
             ev_key ev = link_key link ∧
             ev_url ev = link_url link ∧
             ev_tag_ids ev = map tag_id (link_tags link) ∧
             ev_workspace_id ev = workspaceId ∧
             ev_created_at ev = link_createdAt link ∧
             ev_deleted ev = true) links events ∧
  (recordLink_rejects E = None →
   tinybird (fanOut E workspaceId links w).2 = tinybird w ++ events).
Proof.
  intros events. split.
  { rewrite issued_fanOut. cbn [List.filter is_record_link].
    rewrite List.filter_app, filter_storage_deletes by done. reflexivity. }
  split; [apply length_map|]. split.
  { subst events. induction links as [|l ls IH]; constructor; [|exact IH].
    by repeat split. }
  intros Hok. rewrite fanOut_run. unfold fanOut_world. cbn [tinybird snd].
  by rewrite Hok.
Qed.

(** C9: the fan-out issues exactly one pipeline; it deletes one key per
    link of the batch, in order, and the key of a link is the host's
    [toLowerCase] of the string made of its domain, a colon and its key, so
    the pair fixes the key; when Redis accepts the pipeline those keys
    leave it. *)
Theorem C9_cache_keys_are_normalised :
  let keys := map (λ link, toLowerCase E (link_domain link +:+ ":" +:+ link_key link))
                  links in
  List.filter is_pipeline_exec (issued (fanOut E workspaceId links) w)
    = [ReqPipelineExec keys] ∧
  length keys = length links ∧
  (∀ l1 l2, link_domain l1 = link_domain l2 → link_key l1 = link_key l2 →
            cache_key E l1 = cache_key E l2) ∧
  (pipeline_exec_rejects E = None →
   redis_keys (fanOut E workspaceId links w).2 = redis_keys w ∖ list_to_set keys).
Proof.
  intros keys. split.
  { rewrite issued_fanOut. cbn [List.filter is_pipeline_exec].
    rewrite List.filter_app, filter_storage_deletes by done. reflexivity. }
  split; [apply length_map|]. split.
  { intros l1 l2 Hd Hk. unfold cache_key. by rewrite Hd, Hk. }
  intros Hok. rewrite fanOut_run. unfold fanOut_world. cbn [redis_keys snd].
  by rewrite Hok.
Qed.

End FanOut.

Lemma C7_witness :
  let w := world_of [link_x; link_y] in
  List.filter is_storage_delete
    (issued (fanOut no_faults "ws_1" [link_x; link_y]) w)
    = [ReqStorageDelete "images/l1.png"] ∧
  link_image link_x = Some (R2_URL no_faults +:+ "/" +:+ "images/l1.png") ∧
  own_asset_path no_faults link_y = None.
Proof.
  intros w.
  destruct (C7_own_assets_are_deleted no_faults "ws_1" [link_x; link_y] w)
    as (_ & Hreq & _ & Hpath & _).
  split; [rewrite Hreq; reflexivity|].
  split; [apply Hpath|]; reflexivity.
Defined.

Lemma C8_witness :
  let w := world_of [link_x] in
  recordLink_rejects no_faults = None ∧
  tinybird (fanOut no_faults "ws_1" [link_x] w).2 =
    [{| ev_link_id := "l1"; ev_domain := "go.example"; ev_key := "x";
        ev_url := "https://example.com"; ev_tag_ids := ["t1"];
        ev_workspace_id := "ws_1"; ev_created_at := 1700000000;
        ev_deleted := true |}].
Proof.
  intros w.
  destruct (C8_one_deleted_event_per_link no_faults "ws_1" [link_x] w)
    as (_ & _ & _ & Hbird).
  split; [reflexivity|]. rewrite (Hbird eq_refl). reflexivity.
Defined.

Lemma C9_witness :
  let w := world_of [link_x; link_y] in
  pipeline_exec_rejects no_faults = None ∧
  List.filter is_pipeline_exec
    (issued (fanOut no_faults "ws_1" [link_x; link_y]) w)
    = [ReqPipelineExec ["go.example:x"; "go.example:y"]] ∧
  elements (redis_keys (fanOut no_faults "ws_1" [link_x; link_y] w).2) = [].
Proof.
  intros w.
  destruct (C9_cache_keys_are_normalised no_faults "ws_1" [link_x; link_y] w)
    as (Hreq & _ & _ & Hkeys).
  split; [reflexivity|]. split.
  - rewrite Hreq. reflexivity.
  - rewrite (Hkeys eq_refl). vm_compute. reflexivity.
Defined.

(** ** The usage counter *)

Lemma filter_converge_tail (f : Request → bool) E domain workspaceId w :
  (∀ job, f (ReqPublishJSON job) = false) →
  (∀ slug, f (ReqDomainDelete slug) = false) →
  List.filter f (converge_tail E domain workspaceId w) = [].
Proof.
  intros Hp Hd. unfold converge_tail.
  destruct (count_rejects E); [reflexivity|].
  destruct (_ >? 0); cbn [List.filter]; by rewrite ?Hp, ?Hd.
Qed.

(** The requests of a whole run that reaches the fan-out. *)
Lemma issued_deleteDomainAndLinks E domain workspaceId w :
  findMany_rejects E = None →
  batch domain w ≠ [] →
  let links := batch domain w in
  issued (deleteDomainAndLinks E domain workspaceId) w =
    issued (fanOut E workspaceId links) w ++
    converge_tail E domain workspaceId (settled_world E domain workspaceId links w).
Proof.
  intros Hfind Hbatch links. apply issued_app.
  rewrite (deleteDomainAndLinks_run _ _ _ _ Hfind Hbatch). fold links.
  destruct (converge_frame E domain workspaceId
              (settled_world E domain workspaceId links w))
    as (_&_&_&_&_&_&_&_&->).
  rewrite requests_settled_world, requests_fanOut, issued_fanOut.
  by rewrite <- app_assoc.
Qed.

Section Counter.
Context (E : Env) (domain workspaceId : string) (w : World).

(** C5: a run that chooses a batch issues exactly one decrement of
    [linksUsage], for the given workspace and by the size of the batch,
    whichever of the other calls reject; when the store accepts the
    decrement the counter of that workspace goes down by exactly that size
    and no other counter moves. *)
Theorem C5_counter_decrement_is_unconditional :
  findMany_rejects E = None →
  batch domain w ≠ [] →
  let n := Z.of_nat (length (batch domain w)) in
  let w' := (deleteDomainAndLinks E domain workspaceId w).2 in
  List.filter is_project_decrement
    (issued (deleteDomainAndLinks E domain workspaceId) w)
    = [ReqProjectDecrement workspaceId n] ∧
  (project_update_rejects E = None →
   ∀ u, linksUsage w !! workspaceId = Some u →
        linksUsage w' !! workspaceId = Some (u - n) ∧
        ∀ other, other ≠ workspaceId → linksUsage w' !! other = linksUsage w !! other).
Proof.
  intros Hfind Hbatch n w'. split.
  - rewrite (issued_deleteDomainAndLinks _ _ _ _ Hfind Hbatch), issued_fanOut.
    rewrite List.filter_app, filter_converge_tail by done.
    cbn [List.filter is_project_decrement].
    rewrite List.filter_app, filter_storage_deletes by done. reflexivity.
  - intros Hok u Hu. subst w'.
    rewrite (deleteDomainAndLinks_run _ _ _ _ Hfind Hbatch).
    destruct (converge_frame E domain workspaceId
                (settled_world E domain workspaceId (batch domain w) w))
      as (_&->&_).
    assert (linksUsage (settled_world E domain workspaceId (batch domain w) w)
            = <[workspaceId := u - n]> (linksUsage w)) as ->.
    { rewrite settled_world_eq. unfold fanOut_world, set_console.
      cbn [linksUsage]. unfold decremented. by rewrite Hok, Hu. }
    split; [apply lookup_insert_eq|].
    intros other Hne. by apply lookup_insert_ne.
Qed.

End Counter.

Lemma C5_witness :
  let w := world_of [link_x] in
  let w' := (deleteDomainAndLinks mysql_delete_down "go.example" "ws_1" w).2 in
  (findMany_rejects mysql_delete_down = None ∧ batch "go.example" w ≠ []) ∧
  (project_update_rejects mysql_delete_down = None ∧
   linksUsage w !! "ws_1" = Some 5) ∧
  link_table w' = link_table w ∧
  linksUsage w' !! "ws_1" = Some 4.
Proof.
  intros w w'.
  assert (batch "go.example" w ≠ []) as Hbatch by (vm_compute; discriminate).
  assert (linksUsage w !! "ws_1" = Some 5) as Hu by (vm_compute; reflexivity).
  split; [by split|]. split; [by split|].
  split; [vm_compute; reflexivity|].
  destruct (C5_counter_decrement_is_unconditional mysql_delete_down
              "go.example" "ws_1" w eq_refl Hbatch) as (_ & Hdec).
  destruct (Hdec eq_refl 5 Hu) as (Hfinal & _).
  exact Hfinal.
Defined.

(** ** Detaching a domain *)

Lemma clear_absent_domain slug (rows : list Domain) :
  existsb (has_slug slug) rows = false →
  map (clear_domain_project slug) rows = rows.
Proof.
  induction rows as [|d rows IH]; [reflexivity|].
  cbn [existsb map]. intros H. apply orb_false_iff in H as [Hd Hrows].
  unfold clear_domain_project at 1. by rewrite Hd, IH.
Qed.

Section Detach.
Context (E : Env) (domain workspaceId : string) (w : World).

(** C6: [markDomainAsDeleted] issues its four requests, the release at
    Vercel, the ownership reset of the domain row, the ownership reset of
    the links and the undelayed deletion job, whichever of them reject, and
    returns [undefined] without throwing once the four have settled: every
    one of the four promises is observed, so no rejection is left
    unhandled, and a rejection of Vercel is on the console when the call
    returns.  Whether Vercel rejects or not, an accepted row update clears
    the ownership of the domain row, an accepted bulk update that of the
    domain's links, and an accepted publish queues the job. *)
Theorem C6_detach_settles_all_four :
  let run := markDomainAsDeleted E domain workspaceId w in
  run.1 = Return VUndefined ∧
  issued (markDomainAsDeleted E domain workspaceId) w =
    [ReqRemoveDomainFromVercel domain;
     ReqDomainClearProject domain;
     ReqLinkClearProject domain;
     ReqPublishJSON (deletion_job E workspaceId domain None)] ∧
  unhandled run.2 = unhandled w ∧
  (∀ e, vercel_rejects E = Some e →
        In {| log_message := "Error deleting domain from Vercel";
              log_reason := e; log_domain := domain;
              log_workspaceId := workspaceId |} (console run.2)) ∧
  (domain_update_rejects E = None →
   domain_table run.2 = map (clear_domain_project domain) (domain_table w)) ∧
  (updateMany_rejects E = None →
   link_table run.2 = map (clear_link_project domain) (link_table w)) ∧
  (publishJSON_rejects E = None →
   qstash_queue run.2 = qstash_queue w ++ [deletion_job E workspaceId domain None]).
Proof.
  intros run. subst run. split; [by rewrite markDomainAsDeleted_run|]. split.
  { apply issued_app. by rewrite markDomainAsDeleted_run. }
  rewrite markDomainAsDeleted_run. unfold detached_world.
  cbn [snd domain_table link_table qstash_queue unhandled console].
  split; [reflexivity|]. split; [|split; [|split]].
  - intros e ->. cbn [settles log_if_rejected].
    apply in_or_app. right. by left.
  - intros Hok. unfold domain_update_settles. rewrite Hok.
    destruct (existsb (has_slug domain) (domain_table w)) eqn:Hex; [reflexivity|].
    by rewrite clear_absent_domain.
  - by intros ->.
  - by intros ->.
Qed.

End Detach.

Lemma C6_witness :
  let w := world_of [link_x; link_y] in
  let run := markDomainAsDeleted vercel_down "go.example" "ws_1" w in
  (vercel_rejects vercel_down = Some "Vercel unavailable" ∧
   domain_update_rejects vercel_down = None ∧
   updateMany_rejects vercel_down = None ∧
   publishJSON_rejects vercel_down = None) ∧
  run.1 = Return VUndefined ∧
  unhandled run.2 = [] ∧
  In {| log_message := "Error deleting domain from Vercel";
        log_reason := "Vercel unavailable"; log_domain := "go.example";
        log_workspaceId := "ws_1" |} (console run.2) ∧
  map domain_projectId (domain_table run.2) = [None] ∧
  map link_projectId (link_table run.2) = [None; None] ∧
  qstash_queue run.2 = [deletion_job vercel_down "ws_1" "go.example" None].
Proof.
  intros w run.
  destruct (C6_detach_settles_all_four vercel_down "go.example" "ws_1" w)
    as (Hret & _ & Hun & Hlog & Hdom & Hlinks & Hqueue).
  split; [by repeat split|]. split; [exact Hret|].
  split; [exact Hun|]. split; [exact (Hlog _ eq_refl)|].
  subst run. rewrite (Hdom eq_refl), (Hlinks eq_refl), (Hqueue eq_refl).
  by repeat split.
Defined.

(** ** Runs *)

(** One link whose image is in the bucket, nothing rejects and the
    deletion in the bucket has landed: the row, the key, the object are
    gone, one event is recorded, the counter is down by
    one, the domain row is deleted and no job is queued. *)
Example one_link_is_cleaned_up :
  let w := world_of [link_x] in
  let run := deleteDomainAndLinks no_faults "go.example" "ws_1" w in
  run.1 = Return VUndefined ∧
  link_table run.2 = [] ∧
  bool_decide ("go.example:x" ∈ redis_keys run.2) = false ∧
  bool_decide ("images/l1.png" ∈ r2_objects run.2) = false ∧
  map ev_deleted (tinybird run.2) = [true] ∧
  linksUsage run.2 !! "ws_1" = Some 4 ∧
  domain_table run.2 = [] ∧
  qstash_queue run.2 = [].
Proof. vm_compute. repeat split. Qed.

(** The bulk delete is rejected: the batch had one link and that link is
    still counted, so the deletion is queued again and the row kept. *)
Example requeued_when_bulk_delete_rejected :
  let w := world_of [link_x] in
  let run := deleteDomainAndLinks mysql_delete_down "go.example" "ws_1" w in
  run.1 = Return VResponse ∧
  map link_id (link_table run.2) = ["l1"] ∧
  domain_table run.2 = domain_table w ∧
  qstash_queue run.2 = [deletion_job mysql_delete_down "ws_1" "go.example" (Some 2)] ∧
  map log_reason (console run.2) = ["MySQL unavailable"].
Proof. vm_compute. repeat split. Qed.

(** ** Rows deleted by id *)

Lemma id_in_singleton l x :
  negb (id_in [link_id l] x) = other_id l x.
Proof. unfold id_in, other_id. cbn [existsb]. by rewrite orb_false_r. Qed.

Lemma filter_ext_in {A} (f g : A → bool) (l : list A) :
  (∀ x, In x l → f x = g x) → List.filter f l = List.filter g l.
Proof.
  induction l as [|a l IH]; intros H; [reflexivity|].
  cbn [List.filter]. rewrite (H a (or_introl eq_refl)), IH; [reflexivity|].
  intros x Hx. apply H. by right.
Qed.

(** With distinct ids, a row of the table with the id of [l] is [l]. *)
Lemma same_id_same_row (table : list Link) l x :
  NoDup (map link_id table) → In l table → In x table →
  link_id x = link_id l → x = l.
Proof.
  induction table as [|a table IH]; intros Hnd Hl Hx Hid; [destruct Hl|].
  cbn [map] in Hnd. apply NoDup_cons in Hnd as [Ha Hnd].
  destruct Hl as [->|Hl], Hx as [->|Hx]; [reflexivity| | |by apply IH].
  - exfalso. apply Ha. rewrite <- Hid. apply list_elem_of_In, in_map, Hx.
  - exfalso. apply Ha. rewrite Hid. apply list_elem_of_In, in_map, Hl.
Qed.

Lemma NoDup_ids_filter (f : Link → bool) (table : list Link) :
  NoDup (map link_id table) → NoDup (map link_id (List.filter f table)).
Proof.
  induction table as [|a table IH]; intros Hnd; [exact Hnd|].
  cbn [map] in Hnd. apply NoDup_cons in Hnd as [Ha Hnd].
  cbn [List.filter]. destruct (f a); [|by apply IH].
  cbn [map]. apply NoDup_cons. split; [|by apply IH].
  intros Hin. apply Ha. apply list_elem_of_In, in_map_iff in Hin as (x & Hx & Hin).
  apply List.filter_In in Hin as [Hin _].
  rewrite <- Hx. apply list_elem_of_In, in_map, Hin.
Qed.

(** No row has the id of [l]: deleting that id changes nothing. *)
Lemma filter_other_id_absent (table : list Link) l :
  link_id l ∉ map link_id table → List.filter (other_id l) table = table.
Proof.
  induction table as [|a table IH]; intros Ha; [reflexivity|].
  cbn [List.filter map] in *. apply not_elem_of_cons in Ha as [Hne Ha].
  unfold other_id at 1.
  destruct (String.eqb_spec (link_id a) (link_id l)) as [Heq|]; [congruence|].
  cbn [negb]. by rewrite IH.
Qed.

(** Deleting the id of a row that [p] selects leaves one selected row less. *)
Lemma filter_after_delete (p : Link → bool) (table : list Link) l :
  NoDup (map link_id table) → In l table → p l = true →
  length (List.filter p table)
    = S (length (List.filter p (List.filter (other_id l) table))).
Proof.
  induction table as [|a table IH]; intros Hnd Hl Hp; [destruct Hl|].
  assert (Hnd' := Hnd). cbn [map] in Hnd'. apply NoDup_cons in Hnd' as [Ha Hnd'].
  cbn [List.filter]. destruct Hl as [->|Hl].
  - unfold other_id at 1. rewrite String.eqb_refl. cbn [negb]. rewrite Hp.
    cbn [length]. by rewrite (filter_other_id_absent _ _ Ha).
  - assert (other_id l a = true) as Hkeep.
    { unfold other_id. destruct (String.eqb_spec (link_id a) (link_id l)) as [Heq|];
        [|reflexivity].
      exfalso. apply Ha. rewrite Heq. apply list_elem_of_In, in_map, Hl. }
    rewrite Hkeep. cbn [List.filter].
    destruct (p a); cbn [length]; by rewrite (IH Hnd' Hl Hp).
Qed.

(** Rows that [p] selects and that differ from [l] all stay. *)
Lemma filter_delete_unselected (p : Link → bool) (table : list Link) l :
  NoDup (map link_id table) → In l table → p l = false →
  List.filter p (List.filter (other_id l) table) = List.filter p table.
Proof.
  intros Hnd Hl Hp.
  induction table as [|a table IH]; [reflexivity|].
  assert (Hnd' := Hnd). cbn [map] in Hnd'. apply NoDup_cons in Hnd' as [Ha Hnd'].
  cbn [List.filter].
  destruct (other_id l a) eqn:Hkeep.
  - cbn [List.filter]. destruct (p a) eqn:Hpa.
    + f_equal. destruct Hl as [->|Hl]; [congruence|]. by apply IH.
    + destruct Hl as [->|Hl]; [|by apply IH].
      by rewrite (filter_other_id_absent _ _ Ha).
  - unfold other_id in Hkeep. apply negb_false_iff, String.eqb_eq in Hkeep.
    assert (a = l) as ->.
    { apply (same_id_same_row (a :: table)); [exact Hnd|exact Hl|by left|exact Hkeep]. }
    rewrite Hp. by rewrite (filter_other_id_absent _ _ Ha).
Qed.

(** [take: 1] selects at most the first link of the domain. *)
Lemma batch_first domain w :
  batch domain w ≠ [] →
  ∃ l, batch domain w = [l] ∧ In l (link_table w) ∧ where_domain domain l = true.
Proof.
  unfold batch. intros Hb.
  destruct (List.filter (where_domain domain) (link_table w)) as [|l rest] eqn:Hf;
    [done|].
  exists l. split; [reflexivity|].
  apply List.filter_In. rewrite Hf. by left.
Qed.

(** ** Rejections of the sequential calls *)

(** A run that reaches the fan-out, field by field: [converge] only adds
    to the queue, the domain table and the log of requests. *)
Lemma run_after_fanOut E domain workspaceId w :
  findMany_rejects E = None →
  batch domain w ≠ [] →
  let run := deleteDomainAndLinks E domain workspaceId w in
  let settled := fanOut_world E workspaceId (batch domain w) w in
  link_table run.2 = link_table settled ∧
  linksUsage run.2 = linksUsage settled ∧
  redis_keys run.2 = redis_keys settled ∧
  r2_objects run.2 = r2_objects settled ∧
  tinybird run.2 = tinybird settled ∧
  vercel_domains run.2 = vercel_domains w ∧
  unhandled run.2 = unhandled settled ∧
  console run.2 = console w ++
    report_entries domain workspaceId
      (fanOut_response E workspaceId (batch domain w) w).
Proof.
  intros Hfind Hbatch run settled. subst run.
  rewrite (deleteDomainAndLinks_run _ _ _ _ Hfind Hbatch).
  destruct (converge_frame E domain workspaceId
              (settled_world E domain workspaceId (batch domain w) w))
    as (-> & -> & -> & -> & -> & -> & -> & -> & _).
  rewrite settled_world_eq. subst settled. unfold fanOut_world, set_console.
  by cbn [link_table linksUsage redis_keys r2_objects tinybird vercel_domains
          unhandled console].
Qed.

Section Rejections.
Context (E : Env) (domain workspaceId : string) (w : World).

(** X1: when the query for the links rejects, the function throws that
    reason before anything else: no request is issued and the world is as
    it was. *)
Theorem findMany_rejection_stops_the_run (e : Reason) :
  findMany_rejects E = Some e →
  deleteDomainAndLinks E domain workspaceId w = (Throw e, w) ∧
  issued (deleteDomainAndLinks E domain workspaceId) w = [].
Proof.
  intros Hfind.
  assert (deleteDomainAndLinks E domain workspaceId w = (Throw e, w)) as Hrun.
  { unfold deleteDomainAndLinks, bind, prisma_link_findMany. by rewrite Hfind. }
  split; [exact Hrun|]. apply issued_app. rewrite Hrun. by rewrite app_nil_r.
Qed.

(** X2: when the count after the fan-out rejects, the function throws that
    reason.  The fan-out has happened and stays; nothing is published and
    the domain row is not touched. *)
Theorem count_rejection_after_fanOut (e : Reason) :
  findMany_rejects E = None →
  batch domain w ≠ [] →
  count_rejects E = Some e →
  let run := deleteDomainAndLinks E domain workspaceId w in
  run.1 = Throw e ∧
  issued (deleteDomainAndLinks E domain workspaceId) w
    = issued (fanOut E workspaceId (batch domain w)) w ∧
  link_table run.2 = link_table (fanOut E workspaceId (batch domain w) w).2 ∧
  domain_table run.2 = domain_table w ∧
  qstash_queue run.2 = qstash_queue w.
Proof.
  intros Hfind Hbatch Hcount run.
  split.
  { subst run. rewrite (deleteDomainAndLinks_run _ _ _ _ Hfind Hbatch).
    by rewrite converge_run, Hcount. }
  split.
  { rewrite (issued_deleteDomainAndLinks _ _ _ _ Hfind Hbatch).
    unfold converge_tail. by rewrite Hcount, app_nil_r. }
  split.
  { subst run.
    destruct (run_after_fanOut E domain workspaceId w Hfind Hbatch) as (-> & _).
    by rewrite fanOut_run. }
  subst run. rewrite (deleteDomainAndLinks_run _ _ _ _ Hfind Hbatch).
  rewrite converge_run, Hcount. cbn [snd].
  rewrite settled_world_eq. unfold fanOut_world, set_console.
  by cbn [domain_table qstash_queue].
Qed.

(** X3: when no link is left after the fan-out and the deletion of the
    domain row rejects, the function throws that reason; the row stays and
    no job is queued that would try again. *)
Theorem domain_delete_rejection_leaves_the_row (e : Reason) :
  findMany_rejects E = None →
  batch domain w ≠ [] →
  count_rejects E = None →
  remaining domain (settled_world E domain workspaceId (batch domain w) w) = 0 →
  domain_delete_rejects E = Some e →
  let run := deleteDomainAndLinks E domain workspaceId w in
  run.1 = Throw e ∧
  remaining domain run.2 = 0 ∧
  domain_table run.2 = domain_table w ∧
  qstash_queue run.2 = qstash_queue w.
Proof.
  intros Hfind Hbatch Hcount Hn Hdel run.
  assert (remaining domain run.2 = 0) as Hleft.
  { unfold remaining. subst run.
    rewrite (deleteDomainAndLinks_run _ _ _ _ Hfind Hbatch).
    destruct (converge_frame E domain workspaceId
                (settled_world E domain workspaceId (batch domain w) w))
      as (-> & _). exact Hn. }
  split; [|split; [exact Hleft|]].
  - subst run. rewrite (deleteDomainAndLinks_run _ _ _ _ Hfind Hbatch).
    by rewrite converge_run, Hcount, Hn, Hdel.
  - subst run. rewrite (deleteDomainAndLinks_run _ _ _ _ Hfind Hbatch).
    rewrite converge_run, Hcount, Hn, Hdel. cbn [Z.gtb Z.compare snd].
    rewrite settled_world_eq. unfold fanOut_world, set_console, issue, set_requests.
    by cbn [domain_table qstash_queue].
Qed.

(** X4: a run that reaches the fan-out writes one line to the console for
    each rejection among [recordLink], [pipeline.exec], [deleteMany] and the
    counter update, in that order, with the message of line 82, the reason,
    the domain and the workspace; whatever happens later adds no line. *)
Theorem rejections_are_reported_in_order :
  findMany_rejects E = None →
  batch domain w ≠ [] →
  console (deleteDomainAndLinks E domain workspaceId w).2 =
    console w ++
    map (deletion_log domain workspaceId)
      (omap id [recordLink_rejects E;
                pipeline_exec_rejects E;
                deleteMany_rejects E;
                match project_update_rejects E, linksUsage w !! workspaceId with
                | Some e, _ => Some e
                | None, Some _ => None
                | None, None => Some P2025
                end]).
Proof.
  intros Hfind Hbatch.
  destruct (run_after_fanOut E domain workspaceId w Hfind Hbatch)
    as (_&_&_&_&_&_&_& ->).
  f_equal. unfold report_entries, fanOut_response, decrement_settles.
  destruct (recordLink_rejects E), (pipeline_exec_rejects E),
    (deleteMany_rejects E), (project_update_rejects E),
    (linksUsage w !! workspaceId); reflexivity.
Qed.

(** X5: a run that finds links works on exactly one, the first link of
    the domain in the order of the store: [deleteMany] names that one id and
    the counter is decremented by exactly 1. *)
Theorem one_link_per_run :
  findMany_rejects E = None →
  batch domain w ≠ [] →
  ∃ l, In l (link_table w) ∧ link_domain l = domain ∧
       List.filter is_link_deleteMany
         (issued (deleteDomainAndLinks E domain workspaceId) w)
         = [ReqLinkDeleteMany [link_id l]] ∧
       List.filter is_project_decrement
         (issued (deleteDomainAndLinks E domain workspaceId) w)
         = [ReqProjectDecrement workspaceId 1].
Proof.
  intros Hfind Hbatch.
  destruct (batch_first domain w Hbatch) as (l & Hl & Hin & Hdom).
  exists l. split; [exact Hin|]. split; [by apply String.eqb_eq|].
  rewrite (issued_deleteDomainAndLinks _ _ _ _ Hfind Hbatch), issued_fanOut, Hl.
  split.
  - rewrite List.filter_app, filter_converge_tail by done.
    cbn [List.filter is_link_deleteMany].
    rewrite List.filter_app, filter_storage_deletes by done. reflexivity.
  - rewrite List.filter_app, filter_converge_tail by done.
    cbn [List.filter is_project_decrement].
    rewrite List.filter_app, filter_storage_deletes by done. reflexivity.
Qed.

End Rejections.

Lemma findMany_rejection_stops_the_run_witness :
  let w := world_of [link_x] in
  findMany_rejects findMany_down = Some "MySQL unavailable" ∧
  deleteDomainAndLinks findMany_down "go.example" "ws_1" w
    = (Throw "MySQL unavailable", w).
Proof.
  intros w. split; [reflexivity|].
  apply (findMany_rejection_stops_the_run findMany_down "go.example" "ws_1" w
           "MySQL unavailable" eq_refl).
Defined.

Lemma count_rejection_after_fanOut_witness :
  let w := world_of [link_x; link_y] in
  let run := deleteDomainAndLinks count_down "go.example" "ws_1" w in
  (findMany_rejects count_down = None ∧ batch "go.example" w ≠ [] ∧
   count_rejects count_down = Some "MySQL unavailable") ∧
  run.1 = Throw "MySQL unavailable" ∧
  map link_id (link_table run.2) = ["l2"] ∧
  qstash_queue run.2 = [].
Proof.
  intros w run.
  assert (batch "go.example" w ≠ []) as Hbatch by (vm_compute; discriminate).
  split; [by repeat split|].
  destruct (count_rejection_after_fanOut count_down "go.example" "ws_1" w
              "MySQL unavailable" eq_refl Hbatch eq_refl)
    as (Hr & _ & Hlinks & _ & Hq).
  split; [exact Hr|]. subst run. rewrite Hlinks, Hq. by split.
Defined.

Lemma domain_delete_rejection_leaves_the_row_witness :
  let w := world_of [link_x] in
  let run := deleteDomainAndLinks domain_delete_down "go.example" "ws_1" w in
  (findMany_rejects domain_delete_down = None ∧ batch "go.example" w ≠ [] ∧
   count_rejects domain_delete_down = None ∧
   remaining "go.example"
     (settled_world domain_delete_down "go.example" "ws_1"
        (batch "go.example" w) w) = 0 ∧
   domain_delete_rejects domain_delete_down = Some "MySQL unavailable") ∧
  run.1 = Throw "MySQL unavailable" ∧
  domain_table run.2 = domain_table w ∧
  qstash_queue run.2 = [].
Proof.
  intros w run.
  assert (batch "go.example" w ≠ []) as Hbatch by (vm_compute; discriminate).
  assert (remaining "go.example"
     (settled_world domain_delete_down "go.example" "ws_1"
        (batch "go.example" w) w) = 0) as Hn by (vm_compute; reflexivity).
  split; [by repeat split|].
  destruct (domain_delete_rejection_leaves_the_row domain_delete_down
              "go.example" "ws_1" w "MySQL unavailable"
              eq_refl Hbatch eq_refl Hn eq_refl)
    as (Hr & _ & Hdt & Hq).
  by repeat split.
Defined.

Lemma rejections_are_reported_in_order_witness :
  let w := world_of [link_x] in
  (findMany_rejects side_stores_down = None ∧ batch "go.example" w ≠ []) ∧
  map log_reason
    (console (deleteDomainAndLinks side_stores_down "go.example" "ws_1" w).2)
    = ["Tinybird unavailable"; "Redis unavailable"; "MySQL unavailable"].
Proof.
  intros w.
  assert (batch "go.example" w ≠ []) as Hbatch by (vm_compute; discriminate).
  split; [by split|].
  rewrite (rejections_are_reported_in_order side_stores_down "go.example" "ws_1" w
             eq_refl Hbatch).
  reflexivity.
Defined.

Lemma one_link_per_run_witness :
  let w := world_of [link_z; link_x; link_y] in
  (findMany_rejects no_faults = None ∧ batch "go.example" w ≠ []) ∧
  ∃ l, In l (link_table w) ∧ link_domain l = "go.example" ∧
       List.filter is_link_deleteMany
         (issued (deleteDomainAndLinks no_faults "go.example" "ws_1") w)
         = [ReqLinkDeleteMany [link_id l]] ∧
       List.filter is_project_decrement
         (issued (deleteDomainAndLinks no_faults "go.example" "ws_1") w)
         = [ReqProjectDecrement "ws_1" 1].
Proof.
  intros w.
  assert (batch "go.example" w ≠ []) as Hbatch by (vm_compute; discriminate).
  split; [by split|].
  apply (one_link_per_run no_faults "go.example" "ws_1" w eq_refl Hbatch).
Defined.

(** ** Progress and convergence *)

Lemma link_table_after_run E domain workspaceId w l :
  findMany_rejects E = None →
  deleteMany_rejects E = None →
  batch domain w = [l] →
  link_table (deleteDomainAndLinks E domain workspaceId w).2
    = List.filter (other_id l) (link_table w).
Proof.
  intros Hfind Hdel Hl.
  assert (batch domain w ≠ []) as Hbatch by (rewrite Hl; discriminate).
  destruct (run_after_fanOut E domain workspaceId w Hfind Hbatch) as (-> & _).
  unfold fanOut_world. cbn [link_table]. rewrite Hdel, Hl. cbn [map].
  apply filter_ext_in. intros x _. apply id_in_singleton.
Qed.

(** One run with an accepted bulk delete and distinct ids. *)
Lemma removes_one_link E domain workspaceId w :
  findMany_rejects E = None →
  deleteMany_rejects E = None →
  NoDup (map link_id (link_table w)) →
  batch domain w ≠ [] →
  let w' := (deleteDomainAndLinks E domain workspaceId w).2 in
  remaining domain w' = remaining domain w - 1 ∧
  (∀ other, other ≠ domain →
     List.filter (where_domain other) (link_table w')
       = List.filter (where_domain other) (link_table w)) ∧
  NoDup (map link_id (link_table w')).
Proof.
  intros Hfind Hdel Hnd Hbatch w'.
  destruct (batch_first domain w Hbatch) as (l & Hl & Hin & Hdom).
  subst w'. rewrite (link_table_after_run _ _ _ _ _ Hfind Hdel Hl).
  split; [|split].
  - unfold remaining. rewrite (link_table_after_run _ _ _ _ _ Hfind Hdel Hl).
    rewrite (filter_after_delete (where_domain domain) _ l Hnd Hin Hdom). lia.
  - intros other Hne. apply filter_delete_unselected; [exact Hnd|exact Hin|].
    unfold where_domain in *. apply String.eqb_eq in Hdom.
    apply String.eqb_neq. congruence.
  - by apply NoDup_ids_filter.
Qed.

Section Progress.
Context (E : Env) (domain workspaceId : string) (w : World).

(** X6: with distinct link ids and an accepted bulk delete, one run that
    finds links leaves exactly one link of the domain less, keeps the links
    of every other domain as they are, and keeps the ids distinct. *)
Theorem one_run_removes_one_link :
  findMany_rejects E = None →
  deleteMany_rejects E = None →
  NoDup (map link_id (link_table w)) →
  batch domain w ≠ [] →
  let w' := (deleteDomainAndLinks E domain workspaceId w).2 in
  remaining domain w' = remaining domain w - 1 ∧
  (∀ other, other ≠ domain →
     List.filter (where_domain other) (link_table w')
       = List.filter (where_domain other) (link_table w)) ∧
  NoDup (map link_id (link_table w')).
Proof. apply removes_one_link. Qed.

End Progress.

Lemma one_run_removes_one_link_witness :
  let w := world_of [link_z; link_x; link_y] in
  let w' := (deleteDomainAndLinks side_stores_down "go.example" "ws_1" w).2 in
  (findMany_rejects side_stores_down = None ∧
   deleteMany_rejects side_stores_down = None ∧
   NoDup (map link_id (link_table w)) ∧ batch "go.example" w ≠ []) ∧
  remaining "go.example" w' = 1 ∧
  NoDup (map link_id (link_table w')).
Proof.
  intros w w'.
  assert (batch "go.example" w ≠ []) as Hbatch by (vm_compute; discriminate).
  assert (NoDup (map link_id (link_table w))) as Hnd.
  { apply (bool_decide_unpack (NoDup (map link_id (link_table w)))).
    vm_compute. exact I. }
  split; [by repeat split|].
  destruct (one_run_removes_one_link side_stores_down "go.example" "ws_1" w
              eq_refl eq_refl Hnd Hbatch) as (Hrem & _ & Hnd').
  split; [|exact Hnd']. subst w'. rewrite Hrem. reflexivity.
Defined.

(** One accepted run on a domain with [S m] links. *)
Lemma accepted_run E domain workspaceId w m :
  accepts E →
  NoDup (map link_id (link_table w)) →
  length (List.filter (where_domain domain) (link_table w)) = S m →
  let w' := (deleteDomainAndLinks E domain workspaceId w).2 in
  NoDup (map link_id (link_table w')) ∧
  length (List.filter (where_domain domain) (link_table w')) = m ∧
  (∀ other, other ≠ domain →
     List.filter (where_domain other) (link_table w')
       = List.filter (where_domain other) (link_table w)) ∧
  linksUsage w' = decremented E workspaceId 1 (linksUsage w) ∧
  match m with
  | O => (∀ r, In r (domain_table w') → domain_slug r ≠ domain) ∧
         qstash_queue w' = qstash_queue w
  | S _ => domain_table w' = domain_table w ∧
           qstash_queue w' =
             qstash_queue w ++ [deletion_job E workspaceId domain (Some 2)]
  end.
Proof.
  intros (Hfind & Hdel & Hcount & Hpub & Hrow) Hnd Hlen w'.
  assert (batch domain w ≠ []) as Hbatch.
  { unfold batch. destruct (List.filter _ _); [discriminate|]. discriminate. }
  destruct (removes_one_link E domain workspaceId w Hfind Hdel Hnd Hbatch)
    as (Hrem & Hother & Hnd').
  fold w' in Hrem, Hother, Hnd'.
  assert (length (List.filter (where_domain domain) (link_table w')) = m) as Hm.
  { unfold remaining in Hrem. rewrite Hlen in Hrem. lia. }
  split; [exact Hnd'|]. split; [exact Hm|]. split; [exact Hother|].
  destruct (batch_first domain w Hbatch) as (l & Hl & _).
  split.
  { subst w'. destruct (run_after_fanOut E domain workspaceId w Hfind Hbatch)
      as (_ & -> & _).
    unfold fanOut_world. cbn [linksUsage]. by rewrite Hl. }
  assert (remaining domain
            (settled_world E domain workspaceId (batch domain w) w)
          = Z.of_nat m) as Hn.
  { unfold remaining. rewrite <- Hm. subst w'.
    rewrite (deleteDomainAndLinks_run _ _ _ _ Hfind Hbatch).
    by destruct (converge_frame E domain workspaceId
                   (settled_world E domain workspaceId (batch domain w) w))
      as (-> & _). }
  subst w'. rewrite (deleteDomainAndLinks_run _ _ _ _ Hfind Hbatch).
  rewrite converge_run, Hcount, Hn.
  assert (domain_table (settled_world E domain workspaceId (batch domain w) w)
            = domain_table w ∧
          qstash_queue (settled_world E domain workspaceId (batch domain w) w)
            = qstash_queue w) as (Hdt & Hqq).
  { rewrite settled_world_eq. unfold fanOut_world, set_console.
    by cbn [domain_table qstash_queue]. }
  rewrite <- Hdt, <- Hqq.
  destruct m as [|m'].
  - cbn [Z.of_nat Z.gtb Z.compare]. rewrite Hrow.
    destruct (settled_world E domain workspaceId (batch domain w) w)
      as [lt dt lu rk ro tb qq vd co un rq].
    cbn [domain_table].
    destruct (existsb (has_slug domain) dt) eqn:Hex; cbn [snd]; world_cbv.
    + split; [|reflexivity]. intros r Hr.
      apply List.filter_In in Hr as [_ Hr].
      unfold has_slug in Hr. by apply negb_true_iff, String.eqb_neq in Hr.
    + split; [|reflexivity]. intros r Hr Heq.
      assert (existsb (has_slug domain) dt = true) as Habs; [|congruence].
      apply existsb_exists. exists r. split; [exact Hr|].
      unfold has_slug. by apply String.eqb_eq.
  - assert ((Z.of_nat (S m') >? 0) = true) as -> by (apply Z.gtb_gt; lia).
    rewrite Hpub. cbn [snd].
    destruct (settled_world E domain workspaceId (batch domain w) w).
    by world_cbv.
Qed.

(** The induction behind the convergence of the pipeline. *)
Lemma converges E domain workspaceId :
  accepts E →
  ∀ n w,
    NoDup (map link_id (link_table w)) →
    length (List.filter (where_domain domain) (link_table w)) = S n →
    let w' := runs E domain workspaceId (S n) w in
    remaining domain w' = 0 ∧
    (∀ r, In r (domain_table w') → domain_slug r ≠ domain) ∧
    qstash_queue w' =
      qstash_queue w ++ replicate n (deletion_job E workspaceId domain (Some 2)) ∧
    (∀ other, other ≠ domain →
       List.filter (where_domain other) (link_table w')
         = List.filter (where_domain other) (link_table w)) ∧
    (project_update_rejects E = None →
     ∀ u, linksUsage w !! workspaceId = Some u →
          linksUsage w' !! workspaceId = Some (u - Z.of_nat (S n))).
Proof.
  intros Hacc n. induction n as [|n IH]; intros w Hnd Hlen w'.
  - destruct (accepted_run E domain workspaceId w 0 Hacc Hnd Hlen)
      as (_ & Hm & Hother & Husage & Hrow & Hqueue).
    subst w'. cbn [runs replicate].
    split; [unfold remaining; by rewrite Hm|].
    split; [exact Hrow|]. split; [by rewrite app_nil_r|].
    split; [exact Hother|].
    intros Hok u Hu. rewrite Husage. unfold decremented. rewrite Hok, Hu.
    apply lookup_insert_eq.
  - destruct (accepted_run E domain workspaceId w (S n) Hacc Hnd Hlen)
      as (Hnd1 & Hm & Hother & Husage & Hdt & Hqueue).
    destruct (IH _ Hnd1 Hm) as (Hrem & Hrow & Hq & Hother' & Hu').
    subst w'. cbn [runs] in *.
    split; [exact Hrem|]. split; [exact Hrow|]. split.
    { rewrite Hq, Hqueue. by rewrite <- app_assoc. }
    split.
    { intros other Hne. rewrite (Hother' other Hne). by apply Hother. }
    intros Hok u Hu.
    rewrite (Hu' Hok (u - 1)).
    + f_equal. lia.
    + rewrite Husage. unfold decremented. rewrite Hok, Hu.
      apply lookup_insert_eq.
Qed.

Section Convergence.
Context (E : Env) (domain workspaceId : string).

(** X7: when the relational store and the scheduler accept every call and
    link ids are distinct, running the function once per link of the
    domain deletes all its links and then its row.  Every run but the last
    queues one job with delay 2, the links of other domains stay, and an
    accepted counter update takes exactly the number of links off the
    counter.  Rejections of Tinybird, the bucket or Redis do not matter. *)
Theorem pipeline_converges :
  accepts E →
  ∀ n w,
    NoDup (map link_id (link_table w)) →
    length (List.filter (where_domain domain) (link_table w)) = S n →
    let w' := runs E domain workspaceId (S n) w in
    remaining domain w' = 0 ∧
    (∀ r, In r (domain_table w') → domain_slug r ≠ domain) ∧
    qstash_queue w' =
      qstash_queue w ++ replicate n (deletion_job E workspaceId domain (Some 2)) ∧
    (∀ other, other ≠ domain →
       List.filter (where_domain other) (link_table w')
         = List.filter (where_domain other) (link_table w)) ∧
    (project_update_rejects E = None →
     ∀ u, linksUsage w !! workspaceId = Some u →
          linksUsage w' !! workspaceId = Some (u - Z.of_nat (S n))).
Proof. apply converges. Qed.

End Convergence.

Lemma pipeline_converges_witness :
  let w := world_of [link_z; link_x; link_y] in
  let w' := runs side_stores_down "go.example" "ws_1" 2 w in
  (accepts side_stores_down ∧ NoDup (map link_id (link_table w)) ∧
   length (List.filter (where_domain "go.example") (link_table w)) = 2%nat) ∧
  remaining "go.example" w' = 0 ∧
  (∀ r, In r (domain_table w') → domain_slug r ≠ "go.example") ∧
  qstash_queue w' = [deletion_job side_stores_down "ws_1" "go.example" (Some 2)].
Proof.
  intros w w'.
  assert (accepts side_stores_down) as Hacc by (by repeat split).
  assert (NoDup (map link_id (link_table w))) as Hnd.
  { apply (bool_decide_unpack (NoDup (map link_id (link_table w)))).
    vm_compute. exact I. }
  split; [by repeat split|].
  destruct (pipeline_converges side_stores_down "go.example" "ws_1"
              Hacc 1%nat w Hnd eq_refl) as (Hrem & Hrow & Hq & _).
  split; [exact Hrem|]. split; [exact Hrow|]. exact Hq.
Defined.

(** ** Detaching, then deleting *)

Lemma clear_link_project_id domain (table : list Link) :
  map link_id (map (clear_link_project domain) table) = map link_id table.
Proof.
  induction table as [|a table IH]; [reflexivity|].
  cbn [map]. rewrite IH. f_equal.
  unfold clear_link_project. by destruct (where_domain domain a).
Qed.

Lemma where_domain_clear other domain l :
  where_domain other (clear_link_project domain l) = where_domain other l.
Proof. unfold clear_link_project. by destruct (where_domain domain l). Qed.

Lemma filter_clear_link_project other domain (table : list Link) :
  List.filter (where_domain other) (map (clear_link_project domain) table)
    = map (clear_link_project domain) (List.filter (where_domain other) table).
Proof.
  induction table as [|a table IH]; [reflexivity|].
  cbn [map List.filter]. rewrite where_domain_clear.
  destruct (where_domain other a); cbn [map]; by rewrite IH.
Qed.

Lemma clear_other_domain other domain (table : list Link) :
  other ≠ domain →
  map (clear_link_project domain) (List.filter (where_domain other) table)
    = List.filter (where_domain other) table.
Proof.
  intros Hne. induction table as [|a table IH]; [reflexivity|].
  cbn [List.filter]. destruct (where_domain other a) eqn:Ha; [|exact IH].
  cbn [map]. rewrite IH. f_equal. unfold clear_link_project.
  destruct (where_domain domain a) eqn:Hd; [|reflexivity].
  unfold where_domain in *. apply String.eqb_eq in Ha, Hd. congruence.
Qed.

Lemma clear_domain_project_slug slug (rows : list Domain) :
  map domain_slug (map (clear_domain_project slug) rows) = map domain_slug rows.
Proof.
  induction rows as [|a rows IH]; [reflexivity|].
  cbn [map]. rewrite IH. f_equal.
  unfold clear_domain_project. by destruct (has_slug slug a).
Qed.

Lemma has_slug_clear slug other (r : Domain) :
  has_slug slug (clear_domain_project other r) = has_slug slug r.
Proof. unfold clear_domain_project. by destruct (has_slug other r). Qed.

Lemma existsb_clear_domain_project slug other (rows : list Domain) :
  existsb (has_slug slug) (map (clear_domain_project other) rows)
    = existsb (has_slug slug) rows.
Proof.
  induction rows as [|a rows IH]; [reflexivity|].
  cbn [map existsb]. by rewrite has_slug_clear, IH.
Qed.

(** The tables after [markDomainAsDeleted]: rows are kept, at most their
    [projectId] is reset. *)
Lemma detached_tables E domain workspaceId w :
  let w' := (markDomainAsDeleted E domain workspaceId w).2 in
  (link_table w' = link_table w ∨
   link_table w' = map (clear_link_project domain) (link_table w)) ∧
  (domain_table w' = domain_table w ∨
   domain_table w' = map (clear_domain_project domain) (domain_table w)).
Proof.
  rewrite markDomainAsDeleted_run. unfold detached_world.
  cbn [snd link_table domain_table]. split.
  - destruct (updateMany_rejects E); eauto.
  - destruct (domain_update_settles E domain w); eauto.
Qed.

Lemma detached_links E domain workspaceId w :
  let w' := (markDomainAsDeleted E domain workspaceId w).2 in
  map link_id (link_table w') = map link_id (link_table w) ∧
  ∀ other, length (List.filter (where_domain other) (link_table w'))
           = length (List.filter (where_domain other) (link_table w)).
Proof.
  intros w'. destruct (detached_tables E domain workspaceId w) as ([Hl|Hl] & _);
    fold w' in Hl; rewrite Hl; [done|].
  split; [apply clear_link_project_id|].
  intros other. by rewrite filter_clear_link_project, length_map.
Qed.

(** Runs on a domain without links change nothing. *)
Lemma runs_without_links E domain workspaceId k w :
  findMany_rejects E = None →
  batch domain w = [] →
  runs E domain workspaceId k w = w.
Proof.
  intros Hfind Hbatch. induction k as [|k IH]; [reflexivity|].
  cbn [runs]. by rewrite (deleteDomainAndLinks_empty _ _ _ _ Hfind Hbatch).
Qed.

Lemma batch_empty_iff domain w :
  batch domain w = [] ↔ List.filter (where_domain domain) (link_table w) = [].
Proof.
  unfold batch. destruct (List.filter _ _); [done|].
  split; discriminate.
Qed.

Section Detached.
Context (E : Env) (domain workspaceId : string) (w : World).

(** X9: the lines [markDomainAsDeleted] writes to the console are decided
    by Vercel, the update of the domain row and the bulk update of the
    links, in that order.  A rejected bulk update is reported with the
    message about Qstash, and the scheduler's own answer is never looked
    at: its rejection writes no line. *)
Theorem detach_log_ignores_the_scheduler :
  console (markDomainAsDeleted E domain workspaceId w).2 =
    console w ++
    match vercel_rejects E with
    | Some e => [{| log_message := "Error deleting domain from Vercel";
                    log_reason := e; log_domain := domain;
                    log_workspaceId := workspaceId |}]
    | None => []
    end ++
    match domain_update_rejects E with
    | Some e => [{| log_message := "Error deleting domain from Prisma";
                    log_reason := e; log_domain := domain;
                    log_workspaceId := workspaceId |}]
    | None => if existsb (has_slug domain) (domain_table w) then []
              else [{| log_message := "Error deleting domain from Prisma";
                       log_reason := P2025; log_domain := domain;
                       log_workspaceId := workspaceId |}]
    end ++
    match updateMany_rejects E with
    | Some e => [{| log_message := "Error publishing to Qstash";
                    log_reason := e; log_domain := domain;
                    log_workspaceId := workspaceId |}]
    | None => []
    end.
Proof.
  rewrite markDomainAsDeleted_run. unfold detached_world, domain_update_settles.
  cbn [snd console]. f_equal.
  destruct (vercel_rejects E), (domain_update_rejects E), (updateMany_rejects E),
    (existsb (has_slug domain) (domain_table w)); reflexivity.
Qed.

(** X10: [markDomainAsDeleted] deletes and adds no row: the links keep
    their ids and their domains, the domain rows keep their slugs, the links
    of other domains are not modified at all, and the counter, Redis, the
    bucket and Tinybird are not touched. *)
Theorem detach_keeps_every_row :
  let w' := (markDomainAsDeleted E domain workspaceId w).2 in
  map link_id (link_table w') = map link_id (link_table w) ∧
  (∀ other, remaining other w' = remaining other w) ∧
  (∀ other, other ≠ domain →
     List.filter (where_domain other) (link_table w')
       = List.filter (where_domain other) (link_table w)) ∧
  map domain_slug (domain_table w') = map domain_slug (domain_table w) ∧
  linksUsage w' = linksUsage w ∧ redis_keys w' = redis_keys w ∧
  r2_objects w' = r2_objects w ∧ tinybird w' = tinybird w.
Proof.
  intros w'.
  destruct (detached_links E domain workspaceId w) as (Hids & Hlen).
  destruct (detached_tables E domain workspaceId w) as (Hl & Hd).
  fold w' in Hids, Hlen, Hl, Hd.
  split; [exact Hids|]. split.
  { intros other. unfold remaining. by rewrite Hlen. }
  split.
  { intros other Hne. destruct Hl as [->| ->]; [reflexivity|].
    rewrite filter_clear_link_project. by apply clear_other_domain. }
  split.
  { destruct Hd as [->| ->]; [reflexivity|]. apply clear_domain_project_slug. }
  subst w'. rewrite markDomainAsDeleted_run. by unfold detached_world.
Qed.

(** X11: a domain without links is never deleted by this file: after
    [markDomainAsDeleted], any number of runs of [deleteDomainAndLinks]
    returns at line 28 and leaves the world as the detaching left it, with
    the row of the domain still in the table. *)
Theorem detached_domain_without_links_stays (k : nat) :
  findMany_rejects E = None →
  batch domain w = [] →
  existsb (has_slug domain) (domain_table w) = true →
  let detached := (markDomainAsDeleted E domain workspaceId w).2 in
  runs E domain workspaceId k detached = detached ∧
  existsb (has_slug domain)
    (domain_table (runs E domain workspaceId k detached)) = true.
Proof.
  intros Hfind Hbatch Hrow detached.
  assert (batch domain detached = []) as Hempty.
  { apply batch_empty_iff. apply batch_empty_iff in Hbatch.
    destruct (detached_links E domain workspaceId w) as (_ & Hlen).
    specialize (Hlen domain). fold detached in Hlen. rewrite Hbatch in Hlen.
    by destruct (List.filter _ (link_table detached)). }
  rewrite (runs_without_links _ _ _ _ _ Hfind Hempty). split; [reflexivity|].
  destruct (detached_tables E domain workspaceId w) as (_ & [Hd|Hd]);
    fold detached in Hd; rewrite Hd; [exact Hrow|].
  by rewrite existsb_clear_domain_project.
Qed.

End Detached.

Lemma detached_domain_without_links_stays_witness :
  let w := world_of [link_z] in
  let detached := (markDomainAsDeleted no_faults "go.example" "ws_1" w).2 in
  (findMany_rejects no_faults = None ∧ batch "go.example" w = [] ∧
   existsb (has_slug "go.example") (domain_table w) = true) ∧
  domain_table (runs no_faults "go.example" "ws_1" 3 detached)
    = [{| domain_slug := "go.example"; domain_projectId := None |}].
Proof.
  intros w detached. split; [by repeat split|].
  destruct (detached_domain_without_links_stays no_faults "go.example" "ws_1" w 3
              eq_refl eq_refl eq_refl) as (Hsame & _).
  fold detached in Hsame. rewrite Hsame. reflexivity.
Defined.

(** Detaching and then one run per link, by [converges]. *)
Lemma detach_then_converges E domain workspaceId :
  accepts E →
  ∀ n w,
    NoDup (map link_id (link_table w)) →
    length (List.filter (where_domain domain) (link_table w)) = S n →
    let w' := runs E domain workspaceId (S n)
                (markDomainAsDeleted E domain workspaceId w).2 in
    remaining domain w' = 0 ∧
    (∀ r, In r (domain_table w') → domain_slug r ≠ domain) ∧
    qstash_queue w' =
      qstash_queue w ++
      deletion_job E workspaceId domain None
      :: replicate n (deletion_job E workspaceId domain (Some 2)).
Proof.
  intros Hacc n w Hnd Hlen w'.
  destruct (detached_links E domain workspaceId w) as (Hids & Hcount).
  assert (NoDup (map link_id
            (link_table (markDomainAsDeleted E domain workspaceId w).2))) as Hnd'
    by (by rewrite Hids).
  assert (length (List.filter (where_domain domain)
            (link_table (markDomainAsDeleted E domain workspaceId w).2)) = S n)
    as Hlen' by (by rewrite Hcount).
  destruct (converges E domain workspaceId Hacc n _ Hnd' Hlen')
    as (Hrem & Hrow & Hq & _).
  split; [exact Hrem|]. split; [exact Hrow|].
  subst w'. rewrite Hq. rewrite markDomainAsDeleted_run. unfold detached_world.
  cbn [snd qstash_queue]. destruct Hacc as (_ & _ & _ & -> & _).
  by rewrite <- app_assoc.
Qed.

Section DetachThenDelete.
Context (E : Env) (domain workspaceId : string).

(** X12: the two entry points compose.  When the relational store and
    the scheduler accept every call and link ids are distinct, detaching a
    domain that has links and then running the pipeline once per link
    leaves no link and no row of the domain; the queue has received the
    undelayed job of the detaching and one delayed job for every run but
    the last.  Vercel's answer does not matter. *)
Theorem detach_then_redeliveries_delete_the_domain :
  accepts E →
  ∀ n w,
    NoDup (map link_id (link_table w)) →
    length (List.filter (where_domain domain) (link_table w)) = S n →
    let w' := runs E domain workspaceId (S n)
                (markDomainAsDeleted E domain workspaceId w).2 in
    remaining domain w' = 0 ∧
    (∀ r, In r (domain_table w') → domain_slug r ≠ domain) ∧
    qstash_queue w' =
      qstash_queue w ++
      deletion_job E workspaceId domain None
      :: replicate n (deletion_job E workspaceId domain (Some 2)).
Proof. apply detach_then_converges. Qed.

End DetachThenDelete.

Lemma detach_then_redeliveries_delete_the_domain_witness :
  let w := world_of [link_x; link_z; link_y] in
  let w' := runs vercel_down "go.example" "ws_1" 2
              (markDomainAsDeleted vercel_down "go.example" "ws_1" w).2 in
  (accepts vercel_down ∧ NoDup (map link_id (link_table w)) ∧
   length (List.filter (where_domain "go.example") (link_table w)) = 2%nat) ∧
  remaining "go.example" w' = 0 ∧
  (∀ r, In r (domain_table w') → domain_slug r ≠ "go.example") ∧
  qstash_queue w' =
    [deletion_job vercel_down "ws_1" "go.example" None;
     deletion_job vercel_down "ws_1" "go.example" (Some 2)].
Proof.
  intros w w'.
  assert (accepts vercel_down) as Hacc by (by repeat split).
  assert (NoDup (map link_id (link_table w))) as Hnd.
  { apply (bool_decide_unpack (NoDup (map link_id (link_table w)))).
    vm_compute. exact I. }
  split; [by repeat split|].
  apply (detach_then_redeliveries_delete_the_domain vercel_down "go.example" "ws_1"
           Hacc 1%nat w Hnd eq_refl).
Defined.

(** ** What a run leaves alone *)

(** A run leaves the world as it was, or it reached the fan-out. *)
Lemma run_cases E domain workspaceId w :
  (deleteDomainAndLinks E domain workspaceId w).2 = w ∨
  (findMany_rejects E = None ∧ batch domain w ≠ []).
Proof.
  destruct (findMany_rejects E) as [e|] eqn:Hfind.
  - left. unfold deleteDomainAndLinks, bind, prisma_link_findMany.
    by rewrite Hfind.
  - destruct (batch domain w) as [|l ls] eqn:Hb.
    + left. by rewrite (deleteDomainAndLinks_empty _ _ _ _ Hfind Hb).
    + right. by split.
Qed.

Lemma domain_table_after_run E domain workspaceId w :
  let w' := (deleteDomainAndLinks E domain workspaceId w).2 in
  domain_table w' = domain_table w ∨
  domain_table w' = List.filter (λ d, negb (has_slug domain d)) (domain_table w).
Proof.
  intros w'. destruct (run_cases E domain workspaceId w) as [Hsame|(Hfind & Hbatch)].
  { left. subst w'. by rewrite Hsame. }
  assert (domain_table (settled_world E domain workspaceId (batch domain w) w)
            = domain_table w) as Hdt.
  { rewrite settled_world_eq. unfold fanOut_world, set_console.
    by cbn [domain_table]. }
  subst w'. rewrite (deleteDomainAndLinks_run _ _ _ _ Hfind Hbatch).
  rewrite converge_run. rewrite <- Hdt.
  destruct (settled_world E domain workspaceId (batch domain w) w)
    as [lt dt lu rk ro tb qq vd co un rq].
  cbn [domain_table].
  destruct (count_rejects E); [by left|].
  destruct (_ >? 0).
  - left. by destruct (publishJSON_rejects E); world_cbv.
  - destruct (domain_delete_rejects E); [by left; world_cbv|].
    destruct (existsb (has_slug domain) dt); [right|left]; by world_cbv.
Qed.

(** The paths whose deletion the bucket rejects, with the reasons. *)
Lemma rejections_of_storage_promises E links :
  omap rejection (storage_promises E links)
    = omap (storage_delete_rejects E) (r2_paths E links).
Proof.
  unfold storage_promises.
  induction (r2_paths E links) as [|p ps IH]; [reflexivity|].
  cbn [map]. change (omap ?f (?x :: ?l))
    with (match f x with Some y => y :: omap f l | None => omap f l end).
  rewrite IH. unfold settles.
  by destruct (storage_delete_rejects E p).
Qed.

Section Frame.
Context (E : Env) (domain workspaceId : string) (w : World).

(** X13: whatever rejects, a run of [deleteDomainAndLinks] only removes:
    every link and every domain row it leaves was there before, unchanged;
    domain rows with another slug all stay; Redis and the bucket lose
    entries at most; the names bound at Vercel are not touched. *)
Theorem run_only_removes :
  let w' := (deleteDomainAndLinks E domain workspaceId w).2 in
  (∀ l, In l (link_table w') → In l (link_table w)) ∧
  (∀ r, In r (domain_table w') → In r (domain_table w)) ∧
  (∀ r, In r (domain_table w) → domain_slug r ≠ domain → In r (domain_table w')) ∧
  redis_keys w' ⊆ redis_keys w ∧
  r2_objects w' ⊆ r2_objects w ∧
  vercel_domains w' = vercel_domains w.
Proof.
  intros w'.
  assert ((∀ r, In r (domain_table w') → In r (domain_table w)) ∧
          (∀ r, In r (domain_table w) → domain_slug r ≠ domain →
                In r (domain_table w'))) as (Hsub & Hkeep).
  { destruct (domain_table_after_run E domain workspaceId w) as [Hd|Hd];
      fold w' in Hd; rewrite Hd; [by split|].
    split.
    - intros r Hr. by apply List.filter_In in Hr as [Hr _].
    - intros r Hr Hne. apply List.filter_In. split; [exact Hr|].
      unfold has_slug. by apply negb_true_iff, String.eqb_neq. }
  destruct (run_cases E domain workspaceId w) as [Hsame|(Hfind & Hbatch)].
  { subst w'. rewrite Hsame in *. by repeat split. }
  destruct (run_after_fanOut E domain workspaceId w Hfind Hbatch)
    as (Hlt & _ & Hrk & Hro & _ & Hvd & _).
  fold w' in Hlt, Hrk, Hro, Hvd.
  split.
  { intros l. rewrite Hlt. unfold fanOut_world. cbn [link_table].
    destruct (deleteMany_rejects E); [done|].
    intros Hl. by apply List.filter_In in Hl as [Hl _]. }
  split; [exact Hsub|]. split; [exact Hkeep|].
  rewrite Hrk, Hro, Hvd. unfold fanOut_world. cbn [redis_keys r2_objects].
  split; [|split; [|reflexivity]].
  - destruct (pipeline_exec_rejects E); [done|].
    by apply subseteq_difference_l.
  - by apply subseteq_difference_l.
Qed.

(** X14: an image stored at the base URL, [/images/], the link's id and
    any rest passes the check of line 54, and line 55 turns it into the
    path [images/], the id and that rest: the URL without the base URL and
    its slash. *)
Theorem image_url_gives_its_path (link : Link) (rest : string) :
  link_image link = Some (R2_URL E +:+ "/images/" +:+ link_id link +:+ rest) →
  image_in_r2 E link = true ∧
  r2_path E link = Some ("images/" +:+ link_id link +:+ rest).
Proof.
  intros Himg. unfold image_in_r2, r2_path, startsWith. rewrite Himg.
  assert (R2_URL E +:+ "/images/" +:+ link_id link +:+ rest
          = (R2_URL E +:+ "/images/" +:+ link_id link) +:+ rest) as Hsplit
    by (by rewrite !string_app_assoc).
  assert (R2_URL E +:+ "/images/" +:+ link_id link +:+ rest
          = (R2_URL E +:+ "/") +:+ ("images/" +:+ link_id link +:+ rest)) as Hbase
    by (by rewrite string_app_assoc).
  split.
  - rewrite Hsplit. apply prefix_app.
  - f_equal. rewrite Hbase.
    rewrite replace_prefix by apply prefix_app. apply string_drop_app.
Qed.

(** X15: in a run that reaches the fan-out, the reason of every
    [storage.delete] that rejects ends among the unhandled rejections, in
    the order of the deletions, and nothing else does. *)
Theorem storage_rejections_stay_unhandled :
  findMany_rejects E = None →
  batch domain w ≠ [] →
  unhandled (deleteDomainAndLinks E domain workspaceId w).2
    = unhandled w ++
      omap (storage_delete_rejects E) (r2_paths E (batch domain w)).
Proof.
  intros Hfind Hbatch.
  destruct (run_after_fanOut E domain workspaceId w Hfind Hbatch)
    as (_&_&_&_&_&_& -> & _).
  unfold fanOut_world. cbn [unhandled].
  by rewrite rejections_of_storage_promises.
Qed.

End Frame.

Lemma image_url_gives_its_path_witness :
  link_image link_x
    = Some (R2_URL no_faults +:+ "/images/" +:+ link_id link_x +:+ ".png") ∧
  image_in_r2 no_faults link_x = true ∧
  r2_path no_faults link_x = Some "images/l1.png".
Proof.
  split; [reflexivity|].
  apply (image_url_gives_its_path no_faults link_x ".png" eq_refl).
Defined.

Lemma storage_rejections_stay_unhandled_witness :
  let w := world_of [link_x] in
  (findMany_rejects side_stores_down = None ∧ batch "go.example" w ≠ []) ∧
  unhandled (deleteDomainAndLinks side_stores_down "go.example" "ws_1" w).2
    = ["R2 unavailable"].
Proof.
  intros w.
  assert (batch "go.example" w ≠ []) as Hbatch by (vm_compute; discriminate).
  split; [by split|].
  rewrite (storage_rejections_stay_unhandled side_stores_down "go.example" "ws_1" w
             eq_refl Hbatch).
  reflexivity.
Defined.
